(** * 2dFluidSimulation: the FLIP simulation wrapper and its substep driver

    A shallow embedding of

    - [simulator/FlipParticlesSimulation.h]: the constructor and the
      setters written in the class body;
    - [TestSurfaceTension/testsurfacetension.cpp]: the substep loop of
      [display].

    [Real] (a C++ floating-point type, declared in the absent [core.h]) is
    modelled by the exact rationals [Q] where values are stored and
    compared: arithmetic there is exact, and rounding, infinities and NaN
    are outside that model.  C++ [==] on reals is [Qeq].  The substep loop
    of the driver, whose behaviour depends on rounding, is modelled a
    second time over an arbitrary arithmetic, with IEEE double precision as
    an instance (module [Fp]); what is said of its substeps is said
    there. *)

From Stdlib Require Import ZArith NArith QArith Qround Qabs Bool List Lia Lqa.
From Stdlib Require Ascii String.
From Stdlib Require SpecFloat.
Import ListNotations.

Local Open Scope Q_scope.

(** ** Scalars and small vectors *)

Definition Real := Q.

Definition Vec2R := (Real * Real)%type.
Definition Vec2st := (N * N)%type.

(** [a > b] and [a <= b] on reals, as the C++ comparison operators. *)
Definition Real_leb (a b : Real) : bool := Qle_bool a b.
Definition Real_gtb (a b : Real) : bool := negb (Qle_bool a b).
Definition Real_ltb (a b : Real) : bool := negb (Qle_bool b a).

(** ** Transform *)

(** Modelled from the spec: [Transform.h] is not among the sources.  A
    Transform is a grid spacing and a world-space offset; two Transforms
    are matched when spacing and offset are the same numbers. *)
Record Transform := { dx : Real; offset : Vec2R }.

Definition Vec2R_eqb (a b : Vec2R) : bool :=
  Qeq_bool (fst a) (fst b) && Qeq_bool (snd a) (snd b).

Definition Transform_eqb (a b : Transform) : bool :=
  Qeq_bool (dx a) (dx b) && Vec2R_eqb (offset a) (offset b).

Definition Transform_eq (a b : Transform) : Prop :=
  dx a == dx b /\ fst (offset a) == fst (offset b)
  /\ snd (offset a) == snd (offset b).

Definition Vec2st_eqb (a b : Vec2st) : bool :=
  N.eqb (fst a) (fst b) && N.eqb (snd a) (snd b).

(** ** Scalar grid *)

(** Modelled from the spec: [ScalarGrid.h] is not among the sources.  A
    scalar grid is a fixed-size array of samples over a Transform, created
    with a resolution and an optional uniform fill value.  A sample the
    constructor was given no value for is [None]. *)
Record ScalarGrid := {
  sg_xform : Transform;
  sg_size : Vec2st;
  sg_grid : list (option Real)
}.

Definition sample_count (nx : Vec2st) : nat := N.to_nat (fst nx * snd nx).

(** Modelled from the spec: the constructor [ScalarGrid(xform, nx)] or
    [ScalarGrid(xform, nx, value)] of the absent [ScalarGrid.h], the fill
    value optional and uniform. *)
Definition ScalarGrid_new (xform : Transform) (nx : Vec2st)
    (fill : option Real) : ScalarGrid :=
  {| sg_xform := xform; sg_size := nx;
     sg_grid := repeat fill (sample_count nx) |}.

Definition in_range (nx : Vec2st) (ij : Vec2st) : bool :=
  N.ltb (fst ij) (fst nx) && N.ltb (snd ij) (snd nx).

Definition flatten (nx : Vec2st) (ij : Vec2st) : nat :=
  N.to_nat (fst ij * snd nx + snd ij).

(** The sample at cell [ij]; [None] outside the grid as well. *)
Definition sg_at (g : ScalarGrid) (ij : Vec2st) : option Real :=
  if in_range (sg_size g) ij
  then nth (flatten (sg_size g) ij) (sg_grid g) None
  else None.

(** ** Staggered vector grid *)

(** [STAGGERED] is the only sample type the sources name. *)
Inductive VectorGridSettings := STAGGERED.

(** Modelled from the spec: [VectorGrid.h] is not among the sources.  A
    staggered grid over [nx] cells keeps one scalar grid per axis, sampled
    on the cell faces normal to that axis. *)
Record VectorGrid := {
  vg_xform : Transform;
  vg_size : Vec2st;
  vg_stype : VectorGridSettings;
  vg_x : ScalarGrid;
  vg_y : ScalarGrid
}.

Definition face_size (nx : Vec2st) (axis : bool) : Vec2st :=
  if axis then (fst nx, (snd nx + 1)%N) else ((fst nx + 1)%N, snd nx).

(** Modelled from the spec: the constructor [VectorGrid(xform, nx, stype)]
    or [VectorGrid(xform, nx, value, stype)] of the absent [VectorGrid.h],
    the fill value optional and uniform over the faces of both axes. *)
Definition VectorGrid_new (xform : Transform) (nx : Vec2st)
    (fill : option Real) (stype : VectorGridSettings) : VectorGrid :=
  {| vg_xform := xform; vg_size := nx; vg_stype := stype;
     vg_x := ScalarGrid_new xform (face_size nx false) fill;
     vg_y := ScalarGrid_new xform (face_size nx true) fill |}.

(** Face sample [ij] along [axis] ([false]: x, [true]: y). *)
Definition vg_at (g : VectorGrid) (axis : bool) (ij : Vec2st) : option Real :=
  sg_at (if axis then vg_y g else vg_x g) ij.

(** ** Level set *)

(** Modelled from the spec: [LevelSet2d.h] is not among the sources.  A
    level set is a scalar grid of signed distances with a narrow-band
    half-width in cells; the constructor is given no distances. *)
Record LevelSet2D := { ls_phi : ScalarGrid; ls_nb : N }.

Definition LevelSet2D_new (xform : Transform) (nx : Vec2st) (nb : N)
    : LevelSet2D :=
  {| ls_phi := ScalarGrid_new xform nx None; ls_nb := nb |}.

Definition ls_dx (l : LevelSet2D) : Real := dx (sg_xform (ls_phi l)).
Definition ls_xform (l : LevelSet2D) : Transform := sg_xform (ls_phi l).
Definition ls_size (l : LevelSet2D) : Vec2st := sg_size (ls_phi l).

(** Modelled from the spec: [LevelSet2D::is_matched] of the absent
    [LevelSet2d.h]; two fields are matched when they have the same size
    and the same Transform. *)
Definition is_matched (l : LevelSet2D) (g : ScalarGrid) : bool :=
  Vec2st_eqb (ls_size l) (sg_size g) && Transform_eqb (ls_xform l) (sg_xform g).

(** ** Marker particles *)

(** Modelled from the spec: [MarkerParticles.h] is not among the sources.
    The record keeps the four constructor arguments the wrapper passes (the
    last one may be left to its default, [None]) and the particle
    positions, none at construction. *)
Record MarkerParticles := {
  mp_radius : Real;
  mp_count : N;
  mp_oversample : Real;
  mp_flag : option bool;
  mp_points : list Vec2R
}.

Definition MarkerParticles_new (radius : Real) (count : N) (oversample : Real)
    (flag : option bool) : MarkerParticles :=
  {| mp_radius := radius; mp_count := count; mp_oversample := oversample;
     mp_flag := flag; mp_points := [] |}.

(** ** The simulation wrapper: data members

    Members in declaration order.  [m_target_volume] and [m_accum_error]
    are plain [Real] members that no constructor initialiser mentions:
    [None] is the indeterminate value of such a member.
    [m_variableviscosity] is default-constructed until a setter assigns a
    grid: [None]. *)

Record FlipParticlesSimulation := {
  m_vel : VectorGrid;
  m_collision_vel : VectorGrid;
  m_surface : LevelSet2D;
  m_collision : LevelSet2D;
  m_variableviscosity : option ScalarGrid;
  m_particles : MarkerParticles;
  m_air_volume : bool;
  m_air_surface : LevelSet2D;
  m_air_particles : MarkerParticles;
  m_xform : Transform;
  m_moving_solids : bool;
  m_solve_viscosity : bool;
  m_enforce_bubbles : bool;
  m_volume_correction : bool;
  m_st_scale : Real;
  m_target_volume : option Real;
  m_accum_error : option Real
}.

(** The default argument [nb = 5]. *)
Definition default_nb : N := 5.

(** The constructor, lines 35-54. *)
Definition FlipParticlesSimulation_new (xform : Transform) (nx : Vec2st)
    (nb : N) : FlipParticlesSimulation :=
  let surface := LevelSet2D_new xform nx nb in
  {| m_xform := xform;
     m_moving_solids := false;
     m_solve_viscosity := false;
     m_enforce_bubbles := false;
     m_volume_correction := false;
     m_air_volume := false;
     m_st_scale := 0;
     m_vel := VectorGrid_new xform nx None STAGGERED;
     m_collision_vel := VectorGrid_new xform nx (Some 0) STAGGERED;
     m_surface := surface;
     m_collision := LevelSet2D_new xform nx nb;
     m_particles := MarkerParticles_new (ls_dx surface / 2) 4 2 (Some true);
     m_air_surface := LevelSet2D_new xform nx nb;
     m_air_particles := MarkerParticles_new (ls_dx surface / 2) 4 2 None;
     m_variableviscosity := None;
     m_target_volume := None;
     m_accum_error := None |}.

Definition FlipParticlesSimulation_new_default (xform : Transform)
    (nx : Vec2st) : FlipParticlesSimulation :=
  FlipParticlesSimulation_new xform nx default_nb.

(** ** Member functions as state-passing computations

    A member function runs on the object and either returns with the
    updated object or stops at a failed [assert]. *)

Inductive outcome (A : Type) : Type :=
| Returned (a : A) (s : FlipParticlesSimulation)
| AssertionFailed.

Arguments Returned {A} a s.
Arguments AssertionFailed {A}.

Definition M (A : Type) : Type := FlipParticlesSimulation -> outcome A.

Definition ret {A} (a : A) : M A := fun s => Returned a s.

Definition bind {A B} (c : M A) (k : A -> M B) : M B :=
  fun s => match c s with
           | Returned a s' => k a s'
           | AssertionFailed => AssertionFailed
           end.

Notation "x <- c ;; k" := (bind c (fun x => k))
  (at level 61, c at next level, right associativity).
Notation "c ;; k" := (bind c (fun _ => k))
  (at level 61, right associativity).

(** A [const] member function reads the object and leaves it as it is. *)
Definition const_call {A} (f : FlipParticlesSimulation -> A) : M A :=
  fun s => Returned (f s) s.

Definition modify (f : FlipParticlesSimulation -> FlipParticlesSimulation)
    : M unit :=
  fun s => Returned tt (f s).

Definition assert (b : bool) : M unit :=
  fun s => if b then Returned tt s else AssertionFailed.

(** Assignments to single members. *)

Definition with_st_scale (v : Real) (s : FlipParticlesSimulation) :=
  {| m_vel := m_vel s; m_collision_vel := m_collision_vel s;
     m_surface := m_surface s; m_collision := m_collision s;
     m_variableviscosity := m_variableviscosity s;
     m_particles := m_particles s; m_air_volume := m_air_volume s;
     m_air_surface := m_air_surface s; m_air_particles := m_air_particles s;
     m_xform := m_xform s; m_moving_solids := m_moving_solids s;
     m_solve_viscosity := m_solve_viscosity s;
     m_enforce_bubbles := m_enforce_bubbles s;
     m_volume_correction := m_volume_correction s;
     m_st_scale := v;
     m_target_volume := m_target_volume s; m_accum_error := m_accum_error s |}.

Definition with_enforce_bubbles (v : bool) (s : FlipParticlesSimulation) :=
  {| m_vel := m_vel s; m_collision_vel := m_collision_vel s;
     m_surface := m_surface s; m_collision := m_collision s;
     m_variableviscosity := m_variableviscosity s;
     m_particles := m_particles s; m_air_volume := m_air_volume s;
     m_air_surface := m_air_surface s; m_air_particles := m_air_particles s;
     m_xform := m_xform s; m_moving_solids := m_moving_solids s;
     m_solve_viscosity := m_solve_viscosity s;
     m_enforce_bubbles := v;
     m_volume_correction := m_volume_correction s;
     m_st_scale := m_st_scale s;
     m_target_volume := m_target_volume s; m_accum_error := m_accum_error s |}.

Definition with_volume_correction (v : bool) (s : FlipParticlesSimulation) :=
  {| m_vel := m_vel s; m_collision_vel := m_collision_vel s;
     m_surface := m_surface s; m_collision := m_collision s;
     m_variableviscosity := m_variableviscosity s;
     m_particles := m_particles s; m_air_volume := m_air_volume s;
     m_air_surface := m_air_surface s; m_air_particles := m_air_particles s;
     m_xform := m_xform s; m_moving_solids := m_moving_solids s;
     m_solve_viscosity := m_solve_viscosity s;
     m_enforce_bubbles := m_enforce_bubbles s;
     m_volume_correction := v;
     m_st_scale := m_st_scale s;
     m_target_volume := m_target_volume s; m_accum_error := m_accum_error s |}.

Definition with_target_volume (v : Real) (s : FlipParticlesSimulation) :=
  {| m_vel := m_vel s; m_collision_vel := m_collision_vel s;
     m_surface := m_surface s; m_collision := m_collision s;
     m_variableviscosity := m_variableviscosity s;
     m_particles := m_particles s; m_air_volume := m_air_volume s;
     m_air_surface := m_air_surface s; m_air_particles := m_air_particles s;
     m_xform := m_xform s; m_moving_solids := m_moving_solids s;
     m_solve_viscosity := m_solve_viscosity s;
     m_enforce_bubbles := m_enforce_bubbles s;
     m_volume_correction := m_volume_correction s;
     m_st_scale := m_st_scale s;
     m_target_volume := Some v; m_accum_error := m_accum_error s |}.

Definition with_accum_error (v : Real) (s : FlipParticlesSimulation) :=
  {| m_vel := m_vel s; m_collision_vel := m_collision_vel s;
     m_surface := m_surface s; m_collision := m_collision s;
     m_variableviscosity := m_variableviscosity s;
     m_particles := m_particles s; m_air_volume := m_air_volume s;
     m_air_surface := m_air_surface s; m_air_particles := m_air_particles s;
     m_xform := m_xform s; m_moving_solids := m_moving_solids s;
     m_solve_viscosity := m_solve_viscosity s;
     m_enforce_bubbles := m_enforce_bubbles s;
     m_volume_correction := m_volume_correction s;
     m_st_scale := m_st_scale s;
     m_target_volume := m_target_volume s; m_accum_error := Some v |}.

Definition with_variableviscosity (v : ScalarGrid)
    (s : FlipParticlesSimulation) :=
  {| m_vel := m_vel s; m_collision_vel := m_collision_vel s;
     m_surface := m_surface s; m_collision := m_collision s;
     m_variableviscosity := Some v;
     m_particles := m_particles s; m_air_volume := m_air_volume s;
     m_air_surface := m_air_surface s; m_air_particles := m_air_particles s;
     m_xform := m_xform s; m_moving_solids := m_moving_solids s;
     m_solve_viscosity := m_solve_viscosity s;
     m_enforce_bubbles := m_enforce_bubbles s;
     m_volume_correction := m_volume_correction s;
     m_st_scale := m_st_scale s;
     m_target_volume := m_target_volume s; m_accum_error := m_accum_error s |}.

Definition with_solve_viscosity (v : bool) (s : FlipParticlesSimulation) :=
  {| m_vel := m_vel s; m_collision_vel := m_collision_vel s;
     m_surface := m_surface s; m_collision := m_collision s;
     m_variableviscosity := m_variableviscosity s;
     m_particles := m_particles s; m_air_volume := m_air_volume s;
     m_air_surface := m_air_surface s; m_air_particles := m_air_particles s;
     m_xform := m_xform s; m_moving_solids := m_moving_solids s;
     m_solve_viscosity := v;
     m_enforce_bubbles := m_enforce_bubbles s;
     m_volume_correction := m_volume_correction s;
     m_st_scale := m_st_scale s;
     m_target_volume := m_target_volume s; m_accum_error := m_accum_error s |}.

Definition with_moving_solids (v : bool) (s : FlipParticlesSimulation) :=
  {| m_vel := m_vel s; m_collision_vel := m_collision_vel s;
     m_surface := m_surface s; m_collision := m_collision s;
     m_variableviscosity := m_variableviscosity s;
     m_particles := m_particles s; m_air_volume := m_air_volume s;
     m_air_surface := m_air_surface s; m_air_particles := m_air_particles s;
     m_xform := m_xform s; m_moving_solids := v;
     m_solve_viscosity := m_solve_viscosity s;
     m_enforce_bubbles := m_enforce_bubbles s;
     m_volume_correction := m_volume_correction s;
     m_st_scale := m_st_scale s;
     m_target_volume := m_target_volume s; m_accum_error := m_accum_error s |}.

(** ** The setters written in the class body *)

Section Setters.

(** [compute_volume] is declared [const] at line 106 and defined in a
    source file that is not available: the setters take it as given. *)
Variable compute_volume : bool -> FlipParticlesSimulation -> Real.

(** Lines 60-63. *)
Definition set_surface_tension (st_scale : Real) : M unit :=
  modify (with_st_scale st_scale).

(** Lines 65-68. *)
Definition set_enforce_bubbles : M unit :=
  modify (with_enforce_bubbles true).

(** Lines 70-75. *)
Definition set_volume_correction : M unit :=
  modify (with_volume_correction true) ;;
  volume <- const_call (compute_volume true) ;;
  modify (with_target_volume volume) ;;
  modify (with_accum_error 0).

(** Lines 77-82, the overload taking a grid. *)
Definition set_viscosity_grid (visc_coeff : ScalarGrid) : M unit :=
  matched <- const_call (fun s => is_matched (m_surface s) visc_coeff) ;;
  assert matched ;;
  modify (with_variableviscosity visc_coeff) ;;
  modify (with_solve_viscosity true).

(** Lines 84-88, the overload taking a coefficient. *)
Definition set_viscosity (visc_coeff : Real) : M unit :=
  grid <- const_call (fun s =>
    ScalarGrid_new (ls_xform (m_surface s)) (ls_size (m_surface s))
                   (Some visc_coeff)) ;;
  modify (with_variableviscosity grid) ;;
  modify (with_solve_viscosity true).

(** The default argument [visc_coeff = 1.]. *)
Definition set_viscosity_default : M unit := set_viscosity 1.

(** Line 92. *)
Definition disable_moving_solids : M unit :=
  modify (with_moving_solids false).

(** A setter call, and a sequence of them run on one object. *)
Inductive setter :=
| SetSurfaceTension (st_scale : Real)
| SetEnforceBubbles
| SetVolumeCorrection
| SetViscosityGrid (visc_coeff : ScalarGrid)
| SetViscosity (visc_coeff : Real)
| DisableMovingSolids.

Definition call (c : setter) : M unit :=
  match c with
  | SetSurfaceTension st_scale => set_surface_tension st_scale
  | SetEnforceBubbles => set_enforce_bubbles
  | SetVolumeCorrection => set_volume_correction
  | SetViscosityGrid visc_coeff => set_viscosity_grid visc_coeff
  | SetViscosity visc_coeff => set_viscosity visc_coeff
  | DisableMovingSolids => disable_moving_solids
  end.

Fixpoint calls (cs : list setter) : M unit :=
  match cs with
  | [] => ret tt
  | c :: cs' => call c ;; calls cs'
  end.

End Setters.

(** Which setter a call is. *)
Definition is_SetVolumeCorrection (c : setter) : bool :=
  match c with SetVolumeCorrection => true | _ => false end.

Definition is_SetEnforceBubbles (c : setter) : bool :=
  match c with SetEnforceBubbles => true | _ => false end.

Definition is_SetViscosity (c : setter) : bool :=
  match c with SetViscosityGrid _ | SetViscosity _ => true | _ => false end.

Definition is_SetSurfaceTension (c : setter) : bool :=
  match c with SetSurfaceTension _ => true | _ => false end.

Definition is_DisableMovingSolids (c : setter) : bool :=
  match c with DisableMovingSolids => true | _ => false end.

(** The volume does not depend on the volume-correction flag: what the
    setters need to know of the [compute_volume] they are given. *)
Definition ignores_volume_correction
    (volume : bool -> FlipParticlesSimulation -> Real) : Prop :=
  forall liquid v s, volume liquid (with_volume_correction v s) = volume liquid s.

(** ** Volume estimation

    The body of [compute_volume] (declared at line 106) and the level
    set's volume estimate are in source files that are not available.
    Positions are in index space: cell [(i, j)] is the square from
    [(i, j)] to [(i+1, j+1)], its sample at the centre. *)

Definition clamp_index (n : N) (i : Z) : N :=
  Z.to_N (Z.max 0 (Z.min i (Z.of_N n - 1))).

Definition phi_clamped (g : ScalarGrid) (i j : Z) : option Real :=
  sg_at g (clamp_index (fst (sg_size g)) i, clamp_index (snd (sg_size g)) j).

Definition lerp (w a b : Real) : Real := (1 - w) * a + w * b.

(** Modelled from the spec: the scalar grid's point sample of the absent
    [ScalarGrid.h], bilinear between cell centres, indices clamped to the
    grid. *)
Definition interp (g : ScalarGrid) (p : Vec2R) : option Real :=
  let x := fst p - 1 / 2 in
  let y := snd p - 1 / 2 in
  let i := Qfloor x in
  let j := Qfloor y in
  let wx := x - inject_Z i in
  let wy := y - inject_Z j in
  match phi_clamped g i j, phi_clamped g (i + 1) j,
        phi_clamped g i (j + 1), phi_clamped g (i + 1) (j + 1) with
  | Some v00, Some v10, Some v01, Some v11 =>
      Some (lerp wy (lerp wx v00 v10) (lerp wx v01 v11))
  | _, _, _, _ => None
  end.

(** Modelled from the spec: the level set's containment query of the
    absent [LevelSet2d.h]; inside is where the distance is not positive. *)
Definition is_inside (l : LevelSet2D) (p : Vec2R) : bool :=
  match interp (ls_phi l) p with
  | Some d => Real_leb d 0
  | None => false
  end.

Definition N_range (n : N) : list N := map N.of_nat (seq 0 (N.to_nat n)).

Definition cells (nx : Vec2st) : list Vec2st :=
  flat_map (fun i => map (fun j => (i, j)) (N_range (snd nx)))
           (N_range (fst nx)).

Definition sub_coord (n : positive) (i a : N) : Real :=
  inject_Z (Z.of_N i) + (inject_Z (Z.of_N a) + 1 / 2) / inject_Z (Zpos n).

Definition sub_samples (n : positive) (ij : Vec2st) : list Vec2R :=
  flat_map (fun a => map (fun b => (sub_coord n (fst ij) a,
                                    sub_coord n (snd ij) b))
                         (N_range (Npos n)))
           (N_range (Npos n)).

(** Modelled from the spec: the level set's volume estimate of the absent
    [LevelSet2d.h]; it supersamples each cell [n] by [n] and counts the
    samples inside, each worth the area of a sub-cell. *)
Definition estimate_volume (n : positive) (l : LevelSet2D) : Real :=
  let samples := flat_map (sub_samples n) (cells (ls_size l)) in
  let inside := length (filter (is_inside l) samples) in
  let sub_dx := ls_dx l / inject_Z (Zpos n) in
  inject_Z (Z.of_nat inside) * (sub_dx * sub_dx).

(** Modelled from the spec: the body of
    [FlipParticlesSimulation::compute_volume], whose source file is absent;
    it delegates to the volume estimate of the liquid or of the air level
    set.  [samples] is the supersampling factor it asks for. *)
Definition compute_volume (samples : positive) (liquid : bool)
    (s : FlipParticlesSimulation) : Real :=
  estimate_volume samples (if liquid then m_surface s else m_air_surface s).

(** Two level sets hold the same distances: same resolution, same
    samples, same spacing.  Offset and narrow-band width may differ. *)
Definition same_distances (l1 l2 : LevelSet2D) : Prop :=
  ls_size l1 = ls_size l2 /\
  sg_grid (ls_phi l1) = sg_grid (ls_phi l2) /\
  ls_dx l1 = ls_dx l2.

(** ** The driver: the substep loop of [display]

    [testsurfacetension.cpp], lines 15-67.  The simulation object and the
    renderer are used through their member functions only, whose code is
    not in this file: they are taken as given.  Arithmetic is exact in
    this section; it serves the choice of one substep and the flags and
    drawing of [display], and module [Fp] below has the loop in rounded
    arithmetic. *)

Definition g_dt : Real := 1 / 120.
Definition g_dx : Real := 0.025.

(** The threshold [1E-10] of line 43. *)
Definition velmag_threshold : Real := 1E-10.

(** Lines 42-53: the substep chosen for a velocity magnitude, [frame_time]
    into the frame, and whether the throttling message is printed. *)
Definition cfl_dt (velmag : Real) : Real := 3 * g_dx * g_dx / velmag.

Definition substep_dt (velmag frame_time : Real) : Real * bool :=
  if Real_gtb velmag velmag_threshold then
    let dt := cfl_dt velmag in
    if Real_gtb dt (g_dt - frame_time)
    then (g_dt - frame_time, true)
    else (dt, false)
  else (g_dt - frame_time, false).

(** What the loop asks of its collaborators, in order. *)
Inductive request :=
| Clear
| Cout (dt : Real)
| AddForce (force : Vec2R) (dt : Real)
| RunSimulation (dt : Real).

Section Driver.

Variables Sim Renderer : Type.
Variable max_vel_mag : Sim -> Real.
Variable add_force : Vec2R -> Real -> Sim -> Sim.
Variable run_simulation : Real -> Renderer -> Sim -> Sim * Renderer.
Variable clear : Renderer -> Renderer.

(** The globals the loop reads and writes, and its local [frame_time]. *)
Record Globals := {
  g_renderer : Renderer;
  g_sim : Sim;
  g_run : bool;
  g_single_run : bool;
  g_dirty_display : bool;
  g_first_sim : bool
}.

Record LoopState := {
  globals : Globals;
  frame_time : Real;
  log : list request
}.

Inductive control := Continue | Break.

(** Lines 38-61: one pass through the loop body. *)
Definition loop_body (st : LoopState) : control * LoopState :=
  let g := globals st in
  let renderer := clear (g_renderer g) in
  let velmag := if g_first_sim g then 1 else max_vel_mag (g_sim g) in
  let '(dt, throttled) := substep_dt velmag (frame_time st) in
  let printed := if throttled then [Cout dt] else [] in
  let frame_time' := frame_time st + dt in
  if Real_leb dt 0 then
    (Break,
     {| globals := {| g_renderer := renderer; g_sim := g_sim g;
                      g_run := g_run g; g_single_run := g_single_run g;
                      g_dirty_display := g_dirty_display g;
                      g_first_sim := false |};
        frame_time := frame_time';
        log := log st ++ Clear :: printed |})
  else
    let sim := add_force (0, -1) g_dt (g_sim g) in
    let '(sim', renderer') := run_simulation dt renderer sim in
    (Continue,
     {| globals := {| g_renderer := renderer'; g_sim := sim';
                      g_run := g_run g; g_single_run := g_single_run g;
                      g_dirty_display := g_dirty_display g;
                      g_first_sim := false |};
        frame_time := frame_time';
        log := log st ++ Clear :: printed
                   ++ [AddForce (0, -1) g_dt; RunSimulation dt] |}).

(** Lines 36-62: [while (frame_time < g_dt)].  The loop need not end (the
    substeps may shrink for ever), so it runs on fuel; the flag tells
    whether the loop was left ([true]) or the fuel ran out, in which case
    the state reached so far is returned. *)
Fixpoint substep_loop (fuel : nat) (st : LoopState) : bool * LoopState :=
  match fuel with
  | O => (negb (Real_ltb (frame_time st) g_dt), st)
  | S fuel' =>
      if Real_ltb (frame_time st) g_dt then
        match loop_body st with
        | (Continue, st') => substep_loop fuel' st'
        | (Break, st') => (true, st')
        end
      else (true, st)
  end.

(** Lines 33-67: the simulation part of [display]. *)
Definition display_simulate (fuel : nat) (g : Globals)
    : bool * Globals * list request :=
  if g_run g || g_single_run g then
    let '(finished, st) :=
      substep_loop fuel {| globals := g; frame_time := 0; log := [] |} in
    let g' := globals st in
    (finished,
     {| g_renderer := g_renderer g'; g_sim := g_sim g';
        g_run := g_run g'; g_single_run := false;
        g_dirty_display := true; g_first_sim := g_first_sim g' |},
     log st)
  else (true, g, []).

End Driver.

Arguments globals {Sim Renderer} _.
Arguments frame_time {Sim Renderer} _.
Arguments log {Sim Renderer} _.

(** ** Small scenes on which the model is run *)

(** The Transform of [main], line 104. *)
Definition scene_xform : Transform := {| dx := g_dx; offset := (0, 0) |}.

Definition scene_size : Vec2st := (2, 3)%N.

(** A 2 x 3 level set, liquid in three of its cells. *)
Definition pool : LevelSet2D :=
  {| ls_phi := {| sg_xform := scene_xform; sg_size := scene_size;
                  sg_grid := [Some (-1); Some (-1); Some 1;
                              Some (-1); Some 1; Some 1] |};
     ls_nb := 10 |}.

Definition with_surface (l : LevelSet2D) (s : FlipParticlesSimulation) :=
  {| m_vel := m_vel s; m_collision_vel := m_collision_vel s;
     m_surface := l; m_collision := m_collision s;
     m_variableviscosity := m_variableviscosity s;
     m_particles := m_particles s; m_air_volume := m_air_volume s;
     m_air_surface := m_air_surface s; m_air_particles := m_air_particles s;
     m_xform := m_xform s; m_moving_solids := m_moving_solids s;
     m_solve_viscosity := m_solve_viscosity s;
     m_enforce_bubbles := m_enforce_bubbles s;
     m_volume_correction := m_volume_correction s;
     m_st_scale := m_st_scale s;
     m_target_volume := m_target_volume s; m_accum_error := m_accum_error s |}.

Definition fresh_scene : FlipParticlesSimulation :=
  FlipParticlesSimulation_new scene_xform scene_size 10.

Definition pool_scene : FlipParticlesSimulation := with_surface pool fresh_scene.

(** A stand-in simulation for the driver: its state is the largest speed,
    which a force raises by its strength times [dt]. *)
Definition toy_add_force (force : Vec2R) (dt : Real) (speed : Real) : Real :=
  speed + Qabs (snd force) * dt.

Definition toy_run_simulation (dt : Real) (r : unit) (speed : Real)
    : Real * unit := (speed, r).

Definition toy_globals : Globals Real unit :=
  {| g_renderer := tt; g_sim := 0; g_run := true; g_single_run := false;
     g_dirty_display := true; g_first_sim := true |}.

(** A viscosity field over the pool's grid, and one over a finer grid. *)
Definition matched_field : ScalarGrid :=
  ScalarGrid_new {| dx := 1 / 40; offset := (0, 0) |} scene_size (Some 3).

Definition finer_field : ScalarGrid :=
  ScalarGrid_new {| dx := 1 / 80; offset := (0, 0) |} scene_size (Some 3).

Definition larger_field : ScalarGrid :=
  ScalarGrid_new scene_xform (3, 3)%N (Some 3).

(** The pool again, elsewhere in the world and with a thinner band. *)
Definition moved_pool : LevelSet2D :=
  {| ls_phi := {| sg_xform := {| dx := g_dx; offset := (5, 7) |};
                  sg_size := scene_size;
                  sg_grid := sg_grid (ls_phi pool) |};
     ls_nb := 3 |}.

(** ** Consistency of the wrapper's members *)

(** The velocity grids and the three level sets lie over the
    simulation's Transform, have one resolution, and the level sets one
    narrow-band width: what the constructor's body sets up. *)
Definition shared_geometry (s : FlipParticlesSimulation) : Prop :=
  let nx := ls_size (m_surface s) in
  (vg_xform (m_vel s) = m_xform s /\ vg_size (m_vel s) = nx) /\
  (vg_xform (m_collision_vel s) = m_xform s /\
   vg_size (m_collision_vel s) = nx) /\
  ls_xform (m_surface s) = m_xform s /\
  (ls_xform (m_collision s) = m_xform s /\ ls_size (m_collision s) = nx /\
   ls_nb (m_collision s) = ls_nb (m_surface s)) /\
  (ls_xform (m_air_surface s) = m_xform s /\
   ls_size (m_air_surface s) = nx /\
   ls_nb (m_air_surface s) = ls_nb (m_surface s)).

(** A feature that is switched on has the data it works with: the
    viscosity solve a viscosity grid matched with the liquid surface, the
    volume correction a target volume and an accumulated error. *)
Definition features_backed (s : FlipParticlesSimulation) : Prop :=
  (m_solve_viscosity s = true ->
   exists g, m_variableviscosity s = Some g /\
             is_matched (m_surface s) g = true) /\
  (m_volume_correction s = true ->
   (exists v, m_target_volume s = Some v) /\
   (exists e, m_accum_error s = Some e)).

(** The volume is read off the level sets: what a [compute_volume] that
    only measures them satisfies. *)
Definition reads_level_sets_only
    (volume : bool -> FlipParticlesSimulation -> Real) : Prop :=
  forall liquid s1 s2,
    m_surface s1 = m_surface s2 ->
    m_air_surface s1 = m_air_surface s2 ->
    m_collision s1 = m_collision s2 ->
    volume liquid s1 = volume liquid s2.

(** The member (or pair of members) a setter writes. *)
Inductive member :=
| StScale | EnforceBubbles | VolumeCorrection | Viscosity | MovingSolids.

Definition writes (c : setter) : member :=
  match c with
  | SetSurfaceTension _ => StScale
  | SetEnforceBubbles => EnforceBubbles
  | SetVolumeCorrection => VolumeCorrection
  | SetViscosityGrid _ | SetViscosity _ => Viscosity
  | DisableMovingSolids => MovingSolids
  end.

(** A setter call that stops at the assertion of [set_viscosity]. *)
Definition is_mismatched_grid (l : LevelSet2D) (c : setter) : bool :=
  match c with
  | SetViscosityGrid visc_coeff => negb (is_matched l visc_coeff)
  | _ => false
  end.

(** ** The driver: keys, drawing and screenshots

    [testsurfacetension.cpp], lines 68-99.  Drawing and the screenshot
    are member functions of the simulation and of the renderer, taken as
    given; [sprintf_s] is the C library's, modelled for the two directives
    the format of line 82 uses. *)

Section Interactive.

Import Ascii String.

Variables Sim Renderer : Type.
Variable max_vel_mag : Sim -> Real.
Variable add_force : Vec2R -> Real -> Sim -> Sim.
Variable run_simulation : Real -> Renderer -> Sim -> Sim * Renderer.
Variable clear : Renderer -> Renderer.
Variable draw_surface : Sim -> Renderer -> Sim * Renderer.
Variable draw_air : Sim -> Renderer -> Sim * Renderer.
Variable draw_collision : Sim -> Renderer -> Sim * Renderer.
Variable sgi_screenshot : string -> Z -> Renderer -> Renderer.

(** The globals of lines 15-30 that [Globals] leaves out.
    [g_frame_count] is an [int]. *)
Record Display := {
  d_globals : Globals Sim Renderer;
  g_print_screen : bool;
  g_frame_count : Z
}.

Definition INT_MAX : Z := 2147483647.

Definition with_globals (g : Globals Sim Renderer) (d : Display) : Display :=
  {| d_globals := g; g_print_screen := g_print_screen d;
     g_frame_count := g_frame_count d |}.

(** Lines 91-99. *)
Definition keyboard (key : ascii) (x y : Z) (d : Display) : Display :=
  let g := d_globals d in
  if (key =? " ")%char then
    with_globals {| g_renderer := g_renderer _ _ g; g_sim := g_sim _ _ g;
                    g_run := negb (g_run _ _ g);
                    g_single_run := g_single_run _ _ g;
                    g_dirty_display := g_dirty_display _ _ g;
                    g_first_sim := g_first_sim _ _ g |} d
  else if (key =? "n")%char then
    with_globals {| g_renderer := g_renderer _ _ g; g_sim := g_sim _ _ g;
                    g_run := g_run _ _ g;
                    g_single_run := true;
                    g_dirty_display := g_dirty_display _ _ g;
                    g_first_sim := g_first_sim _ _ g |} d
  else if (key =? "p")%char then
    {| d_globals := g;
       g_print_screen := if g_print_screen d then false else true;
       g_frame_count := g_frame_count d |}
  else d.

(** The text [sprintf_s] produces for a format and one string argument:
    [%s] is the argument, [%%] a percent sign; no other directive is
    modelled. *)
Fixpoint format_s (format arg : string) : option string :=
  match format with
  | EmptyString => Some EmptyString
  | String "%" (String "s" rest) =>
      option_map (append arg) (format_s rest arg)
  | String "%" (String "%" rest) =>
      option_map (String "%") (format_s rest arg)
  | String "%" _ => None
  | String c rest => option_map (String c) (format_s rest arg)
  end.

(** [sprintf_s] into a buffer of [size] bytes: the text and its closing
    zero byte have to fit, or the call does not return. *)
Definition sprintf_s (size : nat) (format arg : string) : option string :=
  match format_s format arg with
  | Some text => if (String.length text <? size)%nat then Some text else None
  | None => None
  end.

(** Lines 79-82, for the output directory [dir] ([strlen(dir) + 50] bytes
    allocated, the directory printed through [%s]). *)
Definition screenshot_format (dir : string) : option string :=
  sprintf_s (String.length dir + 50) "%s/screenshot%%04d.sgi" dir.

Definition output_dir : string := "d:/output/".

(** What [display] asks to be drawn. *)
Inductive drawing :=
| DrawSurface
| DrawAir
| DrawCollision
| SgiScreenshot (format : string) (frame : Z).

(** How a call of [display] ends: the substep loop ran out of fuel, the
    call did not return ([sprintf_s] had too small a buffer, or
    [++g_frame_count] overflowed [int]), or it returned. *)
Inductive displayed :=
| OutOfFuel
| Aborted
| Displayed (d : Display) (requests : list request) (drawings : list drawing).

(** Lines 68-88. *)
Definition display_draw (d : Display) (requests : list request)
    : displayed :=
  let g := d_globals d in
  if g_dirty_display _ _ g then
    let '(sim1, r1) := draw_surface (g_sim _ _ g) (g_renderer _ _ g) in
    let '(sim2, r2) := draw_air sim1 r1 in
    let '(sim3, r3) := draw_collision sim2 r2 in
    let shot :=
      if g_print_screen d then
        match screenshot_format output_dir with
        | Some format =>
            Some (sgi_screenshot format (g_frame_count d) r3,
                  [SgiScreenshot format (g_frame_count d)])
        | None => None
        end
      else Some (r3, []) in
    match shot with
    | Some (r4, shots) =>
        if (g_frame_count d <? INT_MAX)%Z then
          Displayed
            {| d_globals := {| g_renderer := r4; g_sim := sim3;
                               g_run := g_run _ _ g;
                               g_single_run := g_single_run _ _ g;
                               g_dirty_display := false;
                               g_first_sim := g_first_sim _ _ g |};
               g_print_screen := g_print_screen d;
               g_frame_count := g_frame_count d + 1 |}
            requests
            (DrawSurface :: DrawAir :: DrawCollision :: shots)
        else Aborted
    | None => Aborted
    end
  else Displayed d requests [].

(** Lines 31-89. *)
Definition display (fuel : nat) (d : Display) : displayed :=
  match display_simulate Sim Renderer max_vel_mag add_force run_simulation
                         clear fuel (d_globals d) with
  | (true, g, requests) => display_draw (with_globals g d) requests
  | (false, _, _) => OutOfFuel
  end.

(** Something makes [display] draw: the simulation runs, a single step
    was asked for, or the picture is out of date. *)
Definition draws (d : Display) : bool :=
  g_run _ _ (d_globals d) || g_single_run _ _ (d_globals d)
  || g_dirty_display _ _ (d_globals d).

End Interactive.

Arguments d_globals {Sim Renderer} _.
Arguments g_print_screen {Sim Renderer} _.
Arguments g_frame_count {Sim Renderer} _.

(** The stand-in simulation behind keys and drawing: drawing changes
    nothing, the picture starts out of date, screenshots are on. *)
Definition toy_show (fuel : nat) (d : Display Real unit) : displayed Real unit :=
  display Real unit (fun speed => speed) toy_add_force toy_run_simulation
          (fun r => r) (fun sim r => (sim, r)) (fun sim r => (sim, r))
          (fun sim r => (sim, r)) (fun _ _ r => r) fuel d.

Definition toy_paused : Display Real unit :=
  {| d_globals := {| g_renderer := tt; g_sim := 0; g_run := false;
                     g_single_run := false; g_dirty_display := true;
                     g_first_sim := true |};
     g_print_screen := true;
     g_frame_count := 7 |}.

(** ** The driver in machine arithmetic

    The loop of [display] again, lines 31-89, over the arithmetic the
    program computes with instead of exact rationals.  [Real] is one
    floating-point type throughout (as with a [typedef double Real];
    [core.h] is absent): an [arithmetic] gives the value of a literal, the
    four operations and the comparisons, each rounding as it does.  The
    simulation, the renderer and the globals are as before. *)

Module Fp.

Record arithmetic := {
  num : Type;
  lit : Q -> num;
  add : num -> num -> num;
  sub : num -> num -> num;
  mul : num -> num -> num;
  div : num -> num -> num;
  ltb : num -> num -> bool;
  leb : num -> num -> bool
}.

(** IEEE 754 double precision, round to nearest even: the Standard
    Library's specification of binary floating point at precision 53 and
    maximal exponent 1024.  A literal is the double nearest to it, got as
    the rounded quotient of its numerator and denominator (both are exact
    doubles for the literals of the driver). *)
Definition of_Z (z : Z) : SpecFloat.spec_float :=
  SpecFloat.binary_normalize 53 1024 z 0 false.

Definition binary64 : arithmetic :=
  {| num := SpecFloat.spec_float;
     lit := fun q => SpecFloat.SFdiv 53 1024 (of_Z (Qnum q))
                                     (of_Z (Zpos (Qden q)));
     add := SpecFloat.SFadd 53 1024;
     sub := SpecFloat.SFsub 53 1024;
     mul := SpecFloat.SFmul 53 1024;
     div := SpecFloat.SFdiv 53 1024;
     ltb := SpecFloat.SFltb;
     leb := SpecFloat.SFleb |}.

(** What the loop asks of its collaborators, in order; [F] is the type
    of the numbers. *)
Inductive request (F : Type) :=
| Clear
| Cout (dt : F)
| AddForce (force : F * F) (dt : F)
| RunSimulation (dt : F).

Arguments Clear {F}.
Arguments Cout {F} dt.
Arguments AddForce {F} force dt.
Arguments RunSimulation {F} dt.

(** The globals the loop works on, its local [frame_time], and the
    requests made so far. *)
Record LoopState (F Sim Renderer : Type) := {
  globals : Globals Sim Renderer;
  frame_time : F;
  log : list (request F)
}.

Arguments globals {F Sim Renderer} _.
Arguments frame_time {F Sim Renderer} _.
Arguments log {F Sim Renderer} _.

(** How a call of [display] ends: the substep loop ran out of fuel, the
    call did not return ([sprintf_s] had too small a buffer, or
    [++g_frame_count] overflowed [int]), or it returned. *)
Inductive displayed (F Sim Renderer : Type) :=
| OutOfFuel
| Aborted
| Displayed (d : Display Sim Renderer) (requests : list (request F))
            (drawings : list drawing).

Arguments OutOfFuel {F Sim Renderer}.
Arguments Aborted {F Sim Renderer}.
Arguments Displayed {F Sim Renderer} d requests drawings.

Section Driver.

Variable A : arithmetic.

Local Notation "x +. y" := (add A x y) (at level 50, left associativity).
Local Notation "x -. y" := (sub A x y) (at level 50, left associativity).
Local Notation "x *. y" := (mul A x y) (at level 40, left associativity).
Local Notation "x /. y" := (div A x y) (at level 40, left associativity).
Local Notation "x <. y" := (ltb A x y) (at level 70, no associativity).
Local Notation "x >. y" := (ltb A y x) (at level 70, no associativity).
Local Notation "x <=. y" := (leb A x y) (at level 70, no associativity).

(** Lines 27 and 29. *)
Definition g_dt : num A := lit A 1 /. lit A 120.
Definition g_dx : num A := lit A 0.025.

(** Line 46. *)
Definition cfl_dt (velmag : num A) : num A :=
  lit A 3 *. g_dx *. g_dx /. velmag.

(** Lines 42-53: the substep, and whether the message of line 50 is
    printed. *)
Definition substep_dt (velmag frame_time : num A) : num A * bool :=
  if velmag >. lit A 1E-10 then
    let dt := cfl_dt velmag in
    if dt >. (g_dt -. frame_time)
    then (g_dt -. frame_time, true)
    else (dt, false)
  else (g_dt -. frame_time, false).

Variables Sim Renderer : Type.
Variable max_vel_mag : Sim -> num A.
Variable add_force : num A * num A -> num A -> Sim -> Sim.
Variable run_simulation : num A -> Renderer -> Sim -> Sim * Renderer.
Variable clear : Renderer -> Renderer.

Local Notation "'state'" := (LoopState (num A) Sim Renderer).

(** The magnitude (line 40) and the substep (lines 42-53) of a pass, and
    what it prints (line 50). *)
Definition pass_velmag (st : state) : num A :=
  if g_first_sim _ _ (globals st) then lit A 1
  else max_vel_mag (g_sim _ _ (globals st)).

Definition pass_dt (st : state) : num A :=
  fst (substep_dt (pass_velmag st) (frame_time st)).

Definition pass_printed (st : state) : list (request (num A)) :=
  if snd (substep_dt (pass_velmag st) (frame_time st))
  then [Cout (pass_dt st)] else [].

(** The force of line 60. *)
Definition gravity : num A * num A := (lit A 0, lit A (-1)).

(** Lines 38-61: one pass through the loop body. *)
Definition loop_body (st : state) : control * state :=
  let g := globals st in
  let renderer := clear (g_renderer _ _ g) in
  let velmag :=
    if g_first_sim _ _ g then lit A 1 else max_vel_mag (g_sim _ _ g) in
  let '(dt, throttled) := substep_dt velmag (frame_time st) in
  let printed := if throttled then [Cout dt] else [] in
  let frame_time' := frame_time st +. dt in
  if dt <=. lit A 0 then
    (Break,
     {| globals := {| g_renderer := renderer; g_sim := g_sim _ _ g;
                      g_run := g_run _ _ g;
                      g_single_run := g_single_run _ _ g;
                      g_dirty_display := g_dirty_display _ _ g;
                      g_first_sim := false |};
        frame_time := frame_time';
        log := log st ++ Clear :: printed |})
  else
    let sim := add_force gravity g_dt (g_sim _ _ g) in
    let '(sim', renderer') := run_simulation dt renderer sim in
    (Continue,
     {| globals := {| g_renderer := renderer'; g_sim := sim';
                      g_run := g_run _ _ g;
                      g_single_run := g_single_run _ _ g;
                      g_dirty_display := g_dirty_display _ _ g;
                      g_first_sim := false |};
        frame_time := frame_time';
        log := log st ++ Clear :: printed
                   ++ [AddForce gravity g_dt; RunSimulation dt] |}).

(** Lines 36-62: [while (frame_time < g_dt)], on fuel; the flag tells
    whether the loop was left. *)
Fixpoint substep_loop (fuel : nat) (st : state) : bool * state :=
  match fuel with
  | O => (negb (frame_time st <. g_dt), st)
  | S fuel' =>
      if frame_time st <. g_dt then
        match loop_body st with
        | (Continue, st') => substep_loop fuel' st'
        | (Break, st') => (true, st')
        end
      else (true, st)
  end.

(** The state a frame starts in: line 35. *)
Definition frame_start (g : Globals Sim Renderer) : state :=
  {| globals := g; frame_time := lit A 0; log := [] |}.

(** Lines 33-67: the simulation part of [display]. *)
Definition display_simulate (fuel : nat) (g : Globals Sim Renderer)
    : bool * Globals Sim Renderer * list (request (num A)) :=
  if g_run _ _ g || g_single_run _ _ g then
    let '(finished, st) := substep_loop fuel (frame_start g) in
    let g' := globals st in
    (finished,
     {| g_renderer := g_renderer _ _ g'; g_sim := g_sim _ _ g';
        g_run := g_run _ _ g'; g_single_run := false;
        g_dirty_display := true; g_first_sim := g_first_sim _ _ g' |},
     log st)
  else (true, g, []).

Variable draw_surface : Sim -> Renderer -> Sim * Renderer.
Variable draw_air : Sim -> Renderer -> Sim * Renderer.
Variable draw_collision : Sim -> Renderer -> Sim * Renderer.
Variable sgi_screenshot : String.string -> Z -> Renderer -> Renderer.

(** Lines 68-88. *)
Definition display_draw (d : Display Sim Renderer)
    (requests : list (request (num A))) : displayed (num A) Sim Renderer :=
  let g := d_globals d in
  if g_dirty_display _ _ g then
    let '(sim1, r1) := draw_surface (g_sim _ _ g) (g_renderer _ _ g) in
    let '(sim2, r2) := draw_air sim1 r1 in
    let '(sim3, r3) := draw_collision sim2 r2 in
    let shot :=
      if g_print_screen d then
        match screenshot_format output_dir with
        | Some format =>
            Some (sgi_screenshot format (g_frame_count d) r3,
                  [SgiScreenshot format (g_frame_count d)])
        | None => None
        end
      else Some (r3, []) in
    match shot with
    | Some (r4, shots) =>
        if (g_frame_count d <? INT_MAX)%Z then
          Displayed
            {| d_globals := {| g_renderer := r4; g_sim := sim3;
                               g_run := g_run _ _ g;
                               g_single_run := g_single_run _ _ g;
                               g_dirty_display := false;
                               g_first_sim := g_first_sim _ _ g |};
               g_print_screen := g_print_screen d;
               g_frame_count := g_frame_count d + 1 |}
            requests
            (DrawSurface :: DrawAir :: DrawCollision :: shots)
        else Aborted
    | None => Aborted
    end
  else Displayed d requests [].

(** Lines 31-89. *)
Definition display (fuel : nat) (d : Display Sim Renderer)
    : displayed (num A) Sim Renderer :=
  match display_simulate fuel (d_globals d) with
  | (true, g, requests) => display_draw (with_globals _ _ g d) requests
  | (false, _, _) => OutOfFuel
  end.

End Driver.

(** A request that reaches the simulation. *)
Definition is_simulation_request {F : Type} (r : request F) : bool :=
  match r with
  | AddForce _ _ | RunSimulation _ => true
  | _ => false
  end.

(** What the loop guarantees of a request: [run_simulation] gets a
    substep for which [dt <= 0] is false, [add_force] the force of line 60
    over the whole frame time. *)
Definition guarded (A : arithmetic) (r : request (num A)) : Prop :=
  match r with
  | RunSimulation dt => leb A dt (lit A 0) = false
  | AddForce force dt => force = gravity A /\ dt = g_dt A
  | _ => True
  end.

(** The calls of one substep: line 60, then line 61. *)
Definition substep_calls (A : arithmetic) (dt : num A)
    : list (request (num A)) :=
  [AddForce (gravity A) (g_dt A); RunSimulation dt].

(** A stand-in simulation that reports scripted velocity magnitudes: the
    head of the list, dropped by each [run_simulation]. *)
Definition scripted : Type := list (num binary64).

Definition scripted_max_vel_mag (sim : scripted) : num binary64 :=
  hd (lit binary64 0) sim.

Definition scripted_run_simulation (dt : num binary64) (r : unit)
    (sim : scripted) : scripted * unit := (tl sim, r).

Definition scripted_loop (fuel : nat) (sim : scripted)
    : bool * LoopState (num binary64) scripted unit :=
  substep_loop binary64 scripted unit scripted_max_vel_mag
               (fun _ _ s => s) scripted_run_simulation (fun r => r) fuel
               (frame_start binary64 scripted unit
                  {| g_renderer := tt; g_sim := sim; g_run := true;
                     g_single_run := false; g_dirty_display := true;
                     g_first_sim := false |}).

(** Magnitudes 8.375 and then 0.1. *)
Definition gust : scripted := [lit binary64 8.375; lit binary64 0.1].

End Fp.

(** The scripted simulation behind keys and drawing, paused: drawing
    changes nothing. *)
Definition scripted_show (fuel : nat) (d : Display Fp.scripted unit)
    : Fp.displayed (Fp.num Fp.binary64) Fp.scripted unit :=
  Fp.display Fp.binary64 Fp.scripted unit Fp.scripted_max_vel_mag
             (fun _ _ sim => sim) Fp.scripted_run_simulation (fun r => r)
             (fun sim r => (sim, r)) (fun sim r => (sim, r))
             (fun sim r => (sim, r)) (fun _ _ r => r) fuel d.

Definition scripted_paused : Display Fp.scripted unit :=
  {| d_globals := {| g_renderer := tt; g_sim := Fp.gust; g_run := false;
                     g_single_run := false; g_dirty_display := false;
                     g_first_sim := false |};
     g_print_screen := false;
     g_frame_count := 7 |}.

(** The paused scene after a press of [n] (character 110) and one call
    of [display], as the model computes it: the globals left behind and
    the requests made. *)
Definition scripted_stepping : Display Fp.scripted unit :=
  keyboard Fp.scripted unit
           (Ascii.Ascii false true true true false true true false) 0 0
           scripted_paused.

Definition stepped : Display Fp.scripted unit :=
  Eval vm_compute in
    match scripted_show 3 scripted_stepping with
    | Fp.Displayed d _ _ => d
    | _ => scripted_paused
    end.

Definition stepped_requests : list (Fp.request (Fp.num Fp.binary64)) :=
  Eval vm_compute in
    match scripted_show 3 scripted_stepping with
    | Fp.Displayed _ requests _ => requests
    | _ => []
    end.

(** * Facts *)

(** ** Comparisons *)

Lemma Real_leb_spec a b : Real_leb a b = true <-> a <= b.
Proof. apply Qle_bool_iff. Qed.

Lemma Real_gtb_spec a b : Real_gtb a b = true <-> b < a.
Proof.
  unfold Real_gtb. rewrite negb_true_iff, <- not_true_iff_false, Qle_bool_iff.
  split; [apply Qnot_le_lt | apply Qlt_not_le].
Qed.

Lemma Real_gtb_false a b : Real_gtb a b = false <-> a <= b.
Proof. unfold Real_gtb. rewrite negb_false_iff. apply Qle_bool_iff. Qed.

Lemma Real_leb_false a b : Real_leb a b = false <-> b < a.
Proof.
  unfold Real_leb. rewrite <- not_true_iff_false, Qle_bool_iff.
  split; [apply Qnot_le_lt | apply Qlt_not_le].
Qed.

Lemma Real_ltb_spec a b : Real_ltb a b = true <-> a < b.
Proof. apply Real_gtb_spec. Qed.

Lemma Transform_eqb_spec a b : Transform_eqb a b = true <-> Transform_eq a b.
Proof.
  unfold Transform_eqb, Vec2R_eqb, Transform_eq.
  rewrite !andb_true_iff, !Qeq_bool_iff. tauto.
Qed.

Lemma Transform_eq_refl a : Transform_eq a a.
Proof. unfold Transform_eq. repeat split; reflexivity. Qed.

Lemma Vec2st_eqb_spec a b : Vec2st_eqb a b = true <-> a = b.
Proof.
  unfold Vec2st_eqb. destruct a as [a1 a2], b as [b1 b2]; simpl.
  rewrite andb_true_iff, !N.eqb_eq. split.
  - intros [-> ->]. reflexivity.
  - intros H. inversion H. auto.
Qed.

(** ** Grids *)

Lemma flatten_lt nx ij : in_range nx ij = true -> (flatten nx ij < sample_count nx)%nat.
Proof.
  unfold in_range, flatten, sample_count.
  destruct nx as [n1 n2], ij as [i j]; simpl.
  rewrite andb_true_iff, !N.ltb_lt. intros [Hi Hj].
  assert (i * n2 + j < n1 * n2)%N by nia. lia.
Qed.

Lemma sg_at_new xform nx fill ij :
  in_range nx ij = true -> sg_at (ScalarGrid_new xform nx fill) ij = fill.
Proof.
  intros H. unfold sg_at, ScalarGrid_new; simpl. rewrite H.
  apply nth_repeat_lt. now apply flatten_lt.
Qed.

Lemma sg_at_unfilled xform nx ij : sg_at (ScalarGrid_new xform nx None) ij = None.
Proof.
  unfold sg_at. destruct (in_range _ ij) eqn:H; [|reflexivity].
  simpl in H. simpl sg_size. unfold ScalarGrid_new at 1; simpl.
  apply nth_repeat_lt. now apply flatten_lt.
Qed.

Lemma sg_grid_new_length xform nx fill :
  length (sg_grid (ScalarGrid_new xform nx fill)) = sample_count nx.
Proof. apply repeat_length. Qed.

(** Splits a goal into its conjuncts and closes those that hold by
    computation. *)
Ltac conjuncts :=
  repeat match goal with |- _ /\ _ => split end; try reflexivity.

(** ** The constructor *)

(** C10: after construction the collision-velocity grid, built with the
    fill value 0, holds 0 at every face sample of both axes; the velocity
    grid is built without a fill value, so none of its samples is given
    one; both are staggered grids over the simulation's Transform and
    resolution. *)
Theorem constructor_velocity_grids (xform : Transform) (nx : Vec2st) (nb : N) :
  let s := FlipParticlesSimulation_new xform nx nb in
  m_collision_vel s = VectorGrid_new xform nx (Some 0) STAGGERED /\
  m_vel s = VectorGrid_new xform nx None STAGGERED /\
  (forall (axis : bool) (ij : Vec2st), in_range (face_size nx axis) ij = true ->
                   vg_at (m_collision_vel s) axis ij = Some 0) /\
  (forall axis : bool,
     length (sg_grid (if axis then vg_y (m_collision_vel s)
                      else vg_x (m_collision_vel s)))
     = sample_count (face_size nx axis)) /\
  (forall (axis : bool) (ij : Vec2st), vg_at (m_vel s) axis ij = None) /\
  vg_xform (m_vel s) = xform /\ vg_xform (m_collision_vel s) = xform /\
  vg_size (m_vel s) = nx /\ vg_size (m_collision_vel s) = nx /\
  vg_stype (m_vel s) = STAGGERED /\ vg_stype (m_collision_vel s) = STAGGERED.
Proof.
  cbv zeta. unfold FlipParticlesSimulation_new; simpl.
  conjuncts.
  - intros [|] ij H; unfold vg_at; simpl; now apply sg_at_new.
  - intros [|]; apply repeat_length.
  - intros [|] ij; unfold vg_at; simpl; apply sg_at_unfilled.
Qed.

Lemma constructor_velocity_grids_witness :
  in_range (face_size scene_size true) (1, 3)%N = true /\
  vg_at (m_collision_vel fresh_scene) true (1, 3)%N = Some 0.
Proof.
  split; [reflexivity|].
  apply (constructor_velocity_grids scene_xform scene_size 10).
  reflexivity.
Defined.

(** ** Setters *)

(** C8: [set_surface_tension] stores the scale it is given in
    [m_st_scale] and leaves every other member (grids, level sets,
    particles, Transform, flags, volume bookkeeping) as it was; with scale
    0 on a new object the object is as the constructor left it. *)
Theorem set_surface_tension_frame (st_scale : Real)
    (s : FlipParticlesSimulation) :
  exists s',
    set_surface_tension st_scale s = Returned tt s' /\
    m_st_scale s' = st_scale /\
    m_vel s' = m_vel s /\ m_collision_vel s' = m_collision_vel s /\
    m_surface s' = m_surface s /\ m_collision s' = m_collision s /\
    m_variableviscosity s' = m_variableviscosity s /\
    m_particles s' = m_particles s /\ m_air_volume s' = m_air_volume s /\
    m_air_surface s' = m_air_surface s /\
    m_air_particles s' = m_air_particles s /\ m_xform s' = m_xform s /\
    m_moving_solids s' = m_moving_solids s /\
    m_solve_viscosity s' = m_solve_viscosity s /\
    m_enforce_bubbles s' = m_enforce_bubbles s /\
    m_volume_correction s' = m_volume_correction s /\
    m_target_volume s' = m_target_volume s /\
    m_accum_error s' = m_accum_error s /\
    (forall xform nx nb,
       set_surface_tension 0 (FlipParticlesSimulation_new xform nx nb)
       = Returned tt (FlipParticlesSimulation_new xform nx nb)).
Proof.
  exists (with_st_scale st_scale s).
  conjuncts.
Qed.

(** C1: [set_volume_correction] turns the volume-correction flag on,
    stores the liquid volume [compute_volume(true)] of the object it is
    called on as the target volume and sets the accumulated error to 0.
    The flag is written before the volume is taken, so the volume is that
    of the object at the call as long as it does not depend on the flag. *)
Theorem set_volume_correction_captures
    (volume : bool -> FlipParticlesSimulation -> Real)
    (s : FlipParticlesSimulation) :
  ignores_volume_correction volume ->
  exists s',
    set_volume_correction volume s = Returned tt s' /\
    m_volume_correction s' = true /\
    m_target_volume s' = Some (volume true s) /\
    m_accum_error s' = Some 0.
Proof.
  intros Hvol.
  exists (with_accum_error 0
            (with_target_volume (volume true (with_volume_correction true s))
               (with_volume_correction true s))).
  conjuncts.
  simpl. now rewrite Hvol.
Qed.

Lemma set_volume_correction_captures_witness :
  ignores_volume_correction (compute_volume 2) /\
  exists s',
    set_volume_correction (compute_volume 2) pool_scene = Returned tt s' /\
    m_volume_correction s' = true /\
    m_target_volume s' = Some (compute_volume 2 true pool_scene) /\
    m_accum_error s' = Some 0.
Proof.
  split.
  - intros liquid v s. reflexivity.
  - apply (set_volume_correction_captures (compute_volume 2) pool_scene).
    intros liquid v s. reflexivity.
Defined.

(** The pool holds three cells of liquid, each of area [g_dx * g_dx]. *)
Example pool_target_volume :
  exists s' v,
    set_volume_correction (compute_volume 2) pool_scene = Returned tt s' /\
    m_target_volume s' = Some v /\ v == 3 * (g_dx * g_dx).
Proof. eexists. eexists. split; [reflexivity|]. split; reflexivity. Qed.

(** C3: [set_viscosity] with a grid whose size or Transform differs from
    the liquid surface's stops at the assertion; with a grid of the same
    size and Transform it returns, the grid stored and the viscosity solve
    switched on. *)
Theorem set_viscosity_grid_contract (visc_coeff : ScalarGrid)
    (s : FlipParticlesSimulation) :
  (ls_size (m_surface s) <> sg_size visc_coeff \/
   ~ Transform_eq (ls_xform (m_surface s)) (sg_xform visc_coeff) ->
   set_viscosity_grid visc_coeff s = AssertionFailed) /\
  (ls_size (m_surface s) = sg_size visc_coeff ->
   Transform_eq (ls_xform (m_surface s)) (sg_xform visc_coeff) ->
   exists s',
     set_viscosity_grid visc_coeff s = Returned tt s' /\
     m_variableviscosity s' = Some visc_coeff /\
     m_solve_viscosity s' = true).
Proof.
  unfold set_viscosity_grid, bind, const_call, is_matched. split.
  - intros H.
    destruct (Vec2st_eqb _ _) eqn:Es; [|reflexivity].
    destruct (Transform_eqb _ _) eqn:Et; [|reflexivity].
    apply Vec2st_eqb_spec in Es. apply Transform_eqb_spec in Et.
    destruct H as [H | H]; contradiction.
  - intros Hs Ht.
    apply Vec2st_eqb_spec in Hs. apply Transform_eqb_spec in Ht.
    rewrite Hs, Ht. simpl.
    exists (with_solve_viscosity true (with_variableviscosity visc_coeff s)).
    conjuncts.
Qed.

Lemma set_viscosity_grid_contract_witness :
  set_viscosity_grid finer_field pool_scene = AssertionFailed /\
  set_viscosity_grid larger_field pool_scene = AssertionFailed /\
  exists s',
    set_viscosity_grid matched_field pool_scene = Returned tt s' /\
    m_variableviscosity s' = Some matched_field /\
    m_solve_viscosity s' = true.
Proof.
  split; [|split].
  - apply (set_viscosity_grid_contract finer_field pool_scene).
    right. unfold Transform_eq; simpl. intros [H _]. discriminate H.
  - apply (set_viscosity_grid_contract larger_field pool_scene).
    left. simpl. discriminate.
  - apply (set_viscosity_grid_contract matched_field pool_scene).
    + reflexivity.
    + unfold Transform_eq; simpl. conjuncts.
Defined.

(** C6: [set_viscosity] with a coefficient (1 when none is given) always
    returns; it stores a grid with the liquid surface's Transform and
    size, every sample of which is the coefficient, and switches the
    viscosity solve on. *)
Theorem set_viscosity_uniform (visc_coeff : Real)
    (s : FlipParticlesSimulation) :
  exists grid s',
    set_viscosity visc_coeff s = Returned tt s' /\
    m_variableviscosity s' = Some grid /\
    m_solve_viscosity s' = true /\
    sg_xform grid = ls_xform (m_surface s) /\
    sg_size grid = ls_size (m_surface s) /\
    length (sg_grid grid) = sample_count (ls_size (m_surface s)) /\
    Forall (eq (Some visc_coeff)) (sg_grid grid) /\
    (forall ij : Vec2st, in_range (ls_size (m_surface s)) ij = true ->
                         sg_at grid ij = Some visc_coeff) /\
    is_matched (m_surface s) grid = true /\
    set_viscosity_default s = set_viscosity 1 s.
Proof.
  exists (ScalarGrid_new (ls_xform (m_surface s)) (ls_size (m_surface s))
                         (Some visc_coeff)).
  eexists. conjuncts.
  - apply repeat_length.
  - apply Forall_forall. intros x Hx.
    symmetry. exact (repeat_spec _ _ _ Hx).
  - intros ij H. now apply sg_at_new.
  - unfold is_matched. apply andb_true_iff. split.
    + now apply Vec2st_eqb_spec.
    + apply Transform_eqb_spec, Transform_eq_refl.
Qed.

Lemma set_viscosity_uniform_witness :
  exists grid s',
    set_viscosity 7 pool_scene = Returned tt s' /\
    m_variableviscosity s' = Some grid /\
    sg_at grid (1, 2)%N = Some 7.
Proof.
  destruct (set_viscosity_uniform 7 pool_scene)
    as (grid & s' & Hrun & Hgrid & _ & _ & _ & _ & _ & Hat & _).
  exists grid, s'. conjuncts; try assumption.
  apply Hat. reflexivity.
Defined.

(** ** Sequences of setter calls *)

Section SetterCalls.

Variable volume : bool -> FlipParticlesSimulation -> Real.

Lemma set_volume_correction_run (s : FlipParticlesSimulation) :
  set_volume_correction volume s
  = Returned tt
      (with_accum_error 0
         (with_target_volume (volume true (with_volume_correction true s))
            (with_volume_correction true s))).
Proof. reflexivity. Qed.

(** Every setter but [set_volume_correction] leaves the volume
    bookkeeping alone. *)
Lemma call_keeps_bookkeeping (c : setter) (s s' : FlipParticlesSimulation) :
  is_SetVolumeCorrection c = false ->
  call volume c s = Returned tt s' ->
  m_target_volume s' = m_target_volume s /\
  m_accum_error s' = m_accum_error s.
Proof.
  intros Hc Hrun. destruct c; simpl in Hc; try discriminate Hc;
    simpl in Hrun.
  - inversion Hrun; subst. split; reflexivity.
  - inversion Hrun; subst. split; reflexivity.
  - unfold set_viscosity_grid, bind, const_call, assert in Hrun.
    destruct (is_matched _ _); [|discriminate Hrun].
    inversion Hrun; subst. split; reflexivity.
  - inversion Hrun; subst. split; reflexivity.
  - inversion Hrun; subst. split; reflexivity.
Qed.

Lemma calls_cons (c : setter) (cs : list setter)
    (s s' : FlipParticlesSimulation) :
  calls volume (c :: cs) s = Returned tt s' ->
  exists s1, call volume c s = Returned tt s1 /\
             calls volume cs s1 = Returned tt s'.
Proof.
  simpl. unfold bind. destruct (call volume c s) as [[] s1|] eqn:E.
  - intros H. exists s1. split; [reflexivity | exact H].
  - discriminate.
Qed.

Lemma calls_bookkeeping (cs : list setter) :
  forall s s', calls volume cs s = Returned tt s' ->
  if existsb is_SetVolumeCorrection cs
  then (exists v, m_target_volume s' = Some v) /\ m_accum_error s' = Some 0
  else m_target_volume s' = m_target_volume s /\
       m_accum_error s' = m_accum_error s.
Proof.
  induction cs as [|c cs IH]; intros s s' Hrun.
  - inversion Hrun; subst. simpl. split; reflexivity.
  - apply calls_cons in Hrun. destruct Hrun as (s1 & Hc & Hcs).
    specialize (IH _ _ Hcs). simpl.
    destruct (is_SetVolumeCorrection c) eqn:Ec; simpl.
    + destruct c; try discriminate Ec. simpl in Hc.
      rewrite set_volume_correction_run in Hc. inversion Hc; subst s1.
      destruct (existsb _ cs); [exact IH|].
      destruct IH as [-> ->]. simpl. split; [eexists|]; reflexivity.
    + destruct (call_keeps_bookkeeping _ _ _ Ec Hc) as [Ht Ha].
      destruct (existsb _ cs); [exact IH|].
      destruct IH as [-> ->]. split; assumption.
Qed.

End SetterCalls.

(** The flags after a sequence of setter calls: a flag is on exactly when
    it was on before or its setter is among the calls. *)
Lemma calls_flags
    (volume : bool -> FlipParticlesSimulation -> Real) (cs : list setter) :
  forall s s', calls volume cs s = Returned tt s' ->
  m_moving_solids s' = m_moving_solids s && negb (existsb is_DisableMovingSolids cs) /\
  m_air_volume s' = m_air_volume s /\
  m_solve_viscosity s' = m_solve_viscosity s || existsb is_SetViscosity cs /\
  m_enforce_bubbles s' = m_enforce_bubbles s || existsb is_SetEnforceBubbles cs /\
  m_volume_correction s'
  = m_volume_correction s || existsb is_SetVolumeCorrection cs /\
  (existsb is_SetSurfaceTension cs = false -> m_st_scale s' = m_st_scale s).
Proof.
  induction cs as [|c cs IH]; intros s s' Hrun.
  - inversion Hrun; subst. simpl.
    rewrite andb_true_r, !orb_false_r. conjuncts.
  - apply calls_cons in Hrun. destruct Hrun as (s1 & Hc & Hcs).
    destruct (IH _ _ Hcs) as (-> & -> & -> & -> & -> & Hst). clear IH Hcs.
    destruct c; simpl in Hc;
      try (unfold set_viscosity_grid, bind, const_call, assert in Hc;
           destruct (is_matched _ _); [|discriminate Hc]);
      inversion Hc; subst s1; simpl;
      rewrite ?andb_false_r, ?orb_true_r, ?orb_false_r, ?andb_true_r;
      conjuncts; try (intros H; discriminate H); try exact Hst;
      try (now destruct (m_moving_solids s));
      try (now destruct (m_solve_viscosity s));
      try (now destruct (m_enforce_bubbles s));
      try (now destruct (m_volume_correction s)).
Qed.

(** C9: for every Transform, resolution and narrow-band width, the object
    just constructed has its five feature flags (moving solids, viscosity
    solve, bubble enforcement, volume correction, air tracking) off and a
    surface-tension scale of 0; through calls of the setters written in
    the class body a flag comes on only with its own setter, and the scale
    stays 0 while [set_surface_tension] is not called. *)
Theorem constructor_features_off (xform : Transform) (nx : Vec2st) (nb : N) :
  let s := FlipParticlesSimulation_new xform nx nb in
  (m_moving_solids s = false /\
   m_solve_viscosity s = false /\
   m_enforce_bubbles s = false /\
   m_volume_correction s = false /\
   m_air_volume s = false /\
   m_st_scale s = 0) /\
  (forall volume cs s',
     calls volume cs s = Returned tt s' ->
     m_moving_solids s' = false /\
     m_air_volume s' = false /\
     m_solve_viscosity s' = existsb is_SetViscosity cs /\
     m_enforce_bubbles s' = existsb is_SetEnforceBubbles cs /\
     m_volume_correction s' = existsb is_SetVolumeCorrection cs /\
     (existsb is_SetSurfaceTension cs = false -> m_st_scale s' = 0)).
Proof.
  cbv zeta. split; [conjuncts|].
  intros volume cs s' Hrun.
  exact (calls_flags volume cs _ _ Hrun).
Qed.

Lemma constructor_features_off_witness :
  exists s',
    calls (compute_volume 2) [SetEnforceBubbles; SetViscosity 1] fresh_scene
    = Returned tt s' /\
    m_moving_solids s' = false /\
    m_air_volume s' = false /\
    m_solve_viscosity s' = true /\
    m_enforce_bubbles s' = true /\
    m_volume_correction s' = false /\
    m_st_scale s' = 0.
Proof.
  eexists. split; [reflexivity|].
  destruct (proj2 (constructor_features_off scene_xform scene_size 10)
              (compute_volume 2) [SetEnforceBubbles; SetViscosity 1] _
              eq_refl) as (H1 & H2 & H3 & H4 & H5 & H6).
  repeat match goal with |- _ /\ _ => split end;
    [exact H1 | exact H2 | exact H3 | exact H4 | exact H5 | exact (H6 eq_refl)].
Defined.

(** C7: on a new object the target volume and the accumulated error
    hold no defined value; they stay so through any calls of the setters
    written in the class body other than [set_volume_correction], and
    hold defined values once it has been called: it sets the target to
    the liquid volume computed at that call and the error to 0. *)
Theorem volume_bookkeeping_initialised
    (volume : bool -> FlipParticlesSimulation -> Real)
    (xform : Transform) (nx : Vec2st) (nb : N) :
  let s0 := FlipParticlesSimulation_new xform nx nb in
  (m_target_volume s0 = None /\ m_accum_error s0 = None) /\
  (forall cs s,
     calls volume cs s0 = Returned tt s ->
     existsb is_SetVolumeCorrection cs = false ->
     m_target_volume s = None /\ m_accum_error s = None) /\
  (forall cs s,
     calls volume cs s0 = Returned tt s ->
     existsb is_SetVolumeCorrection cs = true ->
     (exists v, m_target_volume s = Some v) /\ m_accum_error s = Some 0) /\
  (forall s, exists s',
     set_volume_correction volume s = Returned tt s' /\
     m_target_volume s'
     = Some (volume true (with_volume_correction true s)) /\
     m_accum_error s' = Some 0).
Proof.
  cbv zeta. conjuncts.
  - intros cs s Hrun Hcs.
    pose proof (calls_bookkeeping volume cs _ _ Hrun) as H.
    rewrite Hcs in H. exact H.
  - intros cs s Hrun Hcs.
    pose proof (calls_bookkeeping volume cs _ _ Hrun) as H.
    rewrite Hcs in H. exact H.
  - intros s. eexists. rewrite set_volume_correction_run. conjuncts.
Qed.

Lemma volume_bookkeeping_initialised_witness :
  (exists s,
     calls (compute_volume 2)
           [SetSurfaceTension 10; SetEnforceBubbles; SetViscosity 1;
            DisableMovingSolids] fresh_scene = Returned tt s /\
     m_target_volume s = None /\ m_accum_error s = None) /\
  (exists s,
     calls (compute_volume 2)
           [SetEnforceBubbles; SetVolumeCorrection; SetSurfaceTension 10]
           fresh_scene = Returned tt s /\
     (exists v, m_target_volume s = Some v) /\ m_accum_error s = Some 0).
Proof.
  destruct (volume_bookkeeping_initialised (compute_volume 2)
              scene_xform scene_size 10) as (_ & Hbefore & Hafter & _).
  split; eexists; (split; [reflexivity|]).
  - apply (Hbefore [SetSurfaceTension 10; SetEnforceBubbles; SetViscosity 1;
                    DisableMovingSolids]); reflexivity.
  - apply (Hafter [SetEnforceBubbles; SetVolumeCorrection;
                   SetSurfaceTension 10]); reflexivity.
Defined.

(** ** Volume estimation *)

Lemma sg_at_same (g1 g2 : ScalarGrid) (ij : Vec2st) :
  sg_size g1 = sg_size g2 -> sg_grid g1 = sg_grid g2 ->
  sg_at g1 ij = sg_at g2 ij.
Proof. unfold sg_at. intros -> ->. reflexivity. Qed.

Lemma interp_same (g1 g2 : ScalarGrid) (p : Vec2R) :
  sg_size g1 = sg_size g2 -> sg_grid g1 = sg_grid g2 ->
  interp g1 p = interp g2 p.
Proof.
  intros Hs Hg. unfold interp, phi_clamped.
  rewrite !(sg_at_same g1 g2) by assumption. rewrite Hs. reflexivity.
Qed.

Lemma estimate_volume_same (n : positive) (l1 l2 : LevelSet2D) :
  same_distances l1 l2 -> estimate_volume n l1 = estimate_volume n l2.
Proof.
  intros (Hs & Hg & Hdx). unfold estimate_volume.
  rewrite Hs, Hdx. cbv zeta.
  rewrite (filter_ext (is_inside l1) (is_inside l2)); [reflexivity|]. intros p. unfold is_inside.
  now rewrite (interp_same (ls_phi l1) (ls_phi l2)).
Qed.

Lemma same_distances_refl (l : LevelSet2D) : same_distances l l.
Proof. unfold same_distances. conjuncts. Qed.

(** No setter of the class body writes a level set. *)
Lemma call_keeps_level_sets
    (volume : bool -> FlipParticlesSimulation -> Real)
    (c : setter) (s s' : FlipParticlesSimulation) :
  call volume c s = Returned tt s' ->
  m_surface s' = m_surface s /\ m_air_surface s' = m_air_surface s.
Proof.
  intros Hrun. destruct c; simpl in Hrun;
    try (inversion Hrun; subst; split; reflexivity).
  unfold set_viscosity_grid, bind, const_call, assert in Hrun.
  destruct (is_matched _ _); [|discriminate Hrun].
  inversion Hrun; subst. split; reflexivity.
Qed.

Lemma calls_keep_level_sets
    (volume : bool -> FlipParticlesSimulation -> Real) (cs : list setter) :
  forall s s', calls volume cs s = Returned tt s' ->
  m_surface s' = m_surface s /\ m_air_surface s' = m_air_surface s.
Proof.
  induction cs as [|c cs IH]; intros s s' Hrun.
  - inversion Hrun; subst. split; reflexivity.
  - apply calls_cons in Hrun. destruct Hrun as (s1 & Hc & Hcs).
    destruct (IH _ _ Hcs) as [-> ->].
    now apply call_keeps_level_sets in Hc.
Qed.

(** C4: [compute_volume], a [const] member function, returns with the
    object as it was, and its result is fixed by the distances of the
    level sets and the liquid-or-air argument alone: two objects whose
    liquid and air level sets hold the same distances give the same
    volume, whatever else differs between them, and so do an object and
    what it becomes through any calls of the setters of the class body. *)
Theorem compute_volume_deterministic (samples : positive) (liquid : bool)
    (s1 s2 : FlipParticlesSimulation) :
  const_call (compute_volume samples liquid) s1
  = Returned (compute_volume samples liquid s1) s1 /\
  (same_distances (m_surface s1) (m_surface s2) ->
   same_distances (m_air_surface s1) (m_air_surface s2) ->
   compute_volume samples liquid s1 = compute_volume samples liquid s2) /\
  (forall volume cs,
     calls volume cs s1 = Returned tt s2 ->
     compute_volume samples liquid s2 = compute_volume samples liquid s1).
Proof.
  conjuncts.
  - intros Hl Ha. unfold compute_volume.
    destruct liquid; now apply estimate_volume_same.
  - intros volume cs Hrun.
    destruct (calls_keep_level_sets volume cs _ _ Hrun) as [Hl Ha].
    unfold compute_volume. now rewrite Hl, Ha.
Qed.

Lemma compute_volume_deterministic_witness :
  compute_volume 2 true pool_scene
  = compute_volume 2 true
      (with_st_scale 10 (with_enforce_bubbles true
                           (with_surface moved_pool fresh_scene))) /\
  exists s,
    calls (compute_volume 2)
          [SetSurfaceTension 10; SetVolumeCorrection; SetViscosity 1]
          pool_scene = Returned tt s /\
    compute_volume 2 true s = compute_volume 2 true pool_scene.
Proof.
  split.
  - apply (compute_volume_deterministic 2 true pool_scene).
    + unfold same_distances. conjuncts.
    + apply same_distances_refl.
  - eexists. split; [reflexivity|].
    apply (proj2 (proj2 (compute_volume_deterministic 2 true pool_scene _))
             (compute_volume 2)
             [SetSurfaceTension 10; SetVolumeCorrection; SetViscosity 1]).
    reflexivity.
Defined.

(** ** The substep *)

Lemma threshold_positive (velmag : Real) :
  velmag_threshold < velmag -> 0 < velmag.
Proof.
  intros H. apply Qlt_trans with velmag_threshold; [reflexivity | exact H].
Qed.


Lemma cfl_dt_positive (velmag : Real) : 0 < velmag -> 0 < cfl_dt velmag.
Proof.
  intros H. unfold cfl_dt, Qdiv.
  apply Qmult_lt_0_compat; [reflexivity | now apply Qinv_lt_0_compat].
Qed.

Lemma substep_dt_cases (velmag frame_time : Real) :
  (velmag_threshold < velmag /\ cfl_dt velmag <= g_dt - frame_time /\
   substep_dt velmag frame_time = (cfl_dt velmag, false)) \/
  (velmag_threshold < velmag /\ g_dt - frame_time < cfl_dt velmag /\
   substep_dt velmag frame_time = (g_dt - frame_time, true)) \/
  (velmag <= velmag_threshold /\
   substep_dt velmag frame_time = (g_dt - frame_time, false)).
Proof.
  unfold substep_dt.
  destruct (Real_gtb velmag velmag_threshold) eqn:Ev.
  - apply Real_gtb_spec in Ev.
    destruct (Real_gtb (cfl_dt velmag) (g_dt - frame_time)) eqn:Et.
    + apply Real_gtb_spec in Et. right; left. now conjuncts.
    + apply Real_gtb_false in Et. left. now conjuncts.
  - apply Real_gtb_false in Ev. right; right. now conjuncts.
Qed.

Lemma substep_dt_le_remaining (velmag frame_time : Real) :
  fst (substep_dt velmag frame_time) <= g_dt - frame_time.
Proof.
  destruct (substep_dt_cases velmag frame_time)
    as [(_ & H & ->) | [(_ & _ & ->) | (_ & ->)]]; simpl;
    [exact H | apply Qle_refl | apply Qle_refl].
Qed.



(** * Further facts *)

(** ** The wrapper's members stay consistent *)

Lemma call_outcome
    (volume : bool -> FlipParticlesSimulation -> Real)
    (c : setter) (s : FlipParticlesSimulation) :
  call volume c s
  = if is_mismatched_grid (m_surface s) c then AssertionFailed
    else Returned tt
      match c with
      | SetSurfaceTension st_scale => with_st_scale st_scale s
      | SetEnforceBubbles => with_enforce_bubbles true s
      | SetVolumeCorrection =>
          with_accum_error 0
            (with_target_volume (volume true (with_volume_correction true s))
               (with_volume_correction true s))
      | SetViscosityGrid visc_coeff =>
          with_solve_viscosity true (with_variableviscosity visc_coeff s)
      | SetViscosity visc_coeff =>
          with_solve_viscosity true
            (with_variableviscosity
               (ScalarGrid_new (ls_xform (m_surface s))
                               (ls_size (m_surface s)) (Some visc_coeff)) s)
      | DisableMovingSolids => with_moving_solids false s
      end.
Proof.
  destruct c; try reflexivity.
  simpl. unfold set_viscosity_grid, bind, const_call, assert.
  destruct (is_matched _ _); reflexivity.
Qed.

Lemma new_grid_matched (l : LevelSet2D) (v : Real) :
  is_matched l (ScalarGrid_new (ls_xform l) (ls_size l) (Some v)) = true.
Proof.
  unfold is_matched. apply andb_true_iff. split.
  - now apply Vec2st_eqb_spec.
  - apply Transform_eqb_spec, Transform_eq_refl.
Qed.

Lemma call_keeps_shared_geometry
    (volume : bool -> FlipParticlesSimulation -> Real)
    (c : setter) (s s' : FlipParticlesSimulation) :
  call volume c s = Returned tt s' ->
  shared_geometry s -> shared_geometry s'.
Proof.
  rewrite call_outcome. destruct (is_mismatched_grid _ _); [discriminate|].
  intros H. inversion H; subst s'. clear H.
  destruct c; exact (fun G => G).
Qed.

Lemma call_keeps_features_backed
    (volume : bool -> FlipParticlesSimulation -> Real)
    (c : setter) (s s' : FlipParticlesSimulation) :
  call volume c s = Returned tt s' ->
  features_backed s -> features_backed s'.
Proof.
  rewrite call_outcome.
  destruct (is_mismatched_grid _ _) eqn:Em; [discriminate|].
  intros H [Hv Hc]. inversion H; subst s'. clear H.
  destruct c; simpl in *; split; simpl; try assumption.
  - intros _. split; eexists; reflexivity.
  - intros _. exists visc_coeff. split; [reflexivity|].
    now apply negb_false_iff in Em.
  - intros _. eexists. split; [reflexivity | apply new_grid_matched].
Qed.

(** X1: the constructor puts the two velocity grids and the three level
    sets over one Transform and one resolution (and the level sets on one
    narrow-band width), and no sequence of setter calls that returns
    undoes it. *)
Theorem geometry_is_shared
    (volume : bool -> FlipParticlesSimulation -> Real)
    (xform : Transform) (nx : Vec2st) (nb : N) (cs : list setter)
    (s : FlipParticlesSimulation) :
  calls volume cs (FlipParticlesSimulation_new xform nx nb) = Returned tt s ->
  shared_geometry s /\ m_xform s = xform /\ ls_size (m_surface s) = nx /\
  ls_nb (m_surface s) = nb.
Proof.
  assert (Hgen : forall s0,
            calls volume cs s0 = Returned tt s ->
            shared_geometry s0 ->
            shared_geometry s /\ m_xform s = m_xform s0 /\
            m_surface s = m_surface s0).
  { induction cs as [|c cs IH]; intros s0 Hrun G.
    - inversion Hrun; subst. conjuncts. exact G.
    - apply calls_cons in Hrun. destruct Hrun as (s1 & Hc & Hcs).
      destruct (IH _ Hcs (call_keeps_shared_geometry _ _ _ _ Hc G))
        as (G' & -> & ->).
      split; [exact G'|]. rewrite call_outcome in Hc.
      destruct (is_mismatched_grid _ _); [discriminate|].
      inversion Hc; subst s1. destruct c; split; reflexivity. }
  intros Hrun.
  destruct (Hgen _ Hrun) as (G & -> & ->).
  - unfold shared_geometry. cbv zeta. conjuncts.
  - conjuncts. exact G.
Qed.

Lemma geometry_is_shared_witness :
  exists s,
    calls (compute_volume 2)
          [SetViscosity 2; SetVolumeCorrection; SetViscosityGrid matched_field]
          fresh_scene = Returned tt s /\
    shared_geometry s /\ m_xform s = scene_xform.
Proof.
  eexists. split; [reflexivity|].
  destruct (geometry_is_shared (compute_volume 2) scene_xform scene_size 10
              [SetViscosity 2; SetVolumeCorrection;
               SetViscosityGrid matched_field] _ eq_refl) as (G & X & _).
  split; [exact G | exact X].
Defined.

Lemma calls_keep_features_backed
    (volume : bool -> FlipParticlesSimulation -> Real) (cs : list setter) :
  forall s0 s, calls volume cs s0 = Returned tt s ->
               features_backed s0 -> features_backed s.
Proof.
  induction cs as [|c cs IH]; intros s0 s Hrun B.
  - inversion Hrun; subst. exact B.
  - apply calls_cons in Hrun. destruct Hrun as (s1 & Hc & Hcs).
    exact (IH _ _ Hcs (call_keeps_features_backed _ _ _ _ Hc B)).
Qed.

(** X2: a feature that is on has its data.  On a new object, and after
    any sequence of setter calls that returns on an object where it held:
    if the viscosity solve is on there is a viscosity grid and it is
    matched with the liquid surface; if the volume correction is on the
    target volume and the accumulated error are defined. *)
Theorem features_stay_backed
    (volume : bool -> FlipParticlesSimulation -> Real)
    (cs : list setter) (s0 s : FlipParticlesSimulation) :
  (forall xform nx nb,
     features_backed (FlipParticlesSimulation_new xform nx nb)) /\
  (calls volume cs s0 = Returned tt s ->
   features_backed s0 -> features_backed s).
Proof.
  split.
  - intros xform nx nb. split; simpl; intros H; discriminate H.
  - apply calls_keep_features_backed.
Qed.

Lemma features_stay_backed_witness :
  exists s g,
    calls (compute_volume 2)
          [SetViscosityGrid matched_field; SetVolumeCorrection;
           SetSurfaceTension 10] pool_scene = Returned tt s /\
    m_variableviscosity s = Some g /\ is_matched (m_surface s) g = true.
Proof.
  assert (Hrun : exists s,
            calls (compute_volume 2)
                  [SetViscosityGrid matched_field; SetVolumeCorrection;
                   SetSurfaceTension 10] pool_scene = Returned tt s)
    by (eexists; reflexivity).
  destruct Hrun as [s Hrun]. exists s.
  destruct (features_stay_backed (compute_volume 2)
              [SetViscosityGrid matched_field; SetVolumeCorrection;
               SetSurfaceTension 10] pool_scene s) as [_ Hkeep].
  destruct (Hkeep Hrun) as [Hv _].
  - split; simpl; intros H; discriminate H.
  - assert (Hon : m_solve_viscosity s = true)
      by (vm_compute in Hrun; inversion Hrun; reflexivity).
    destruct (Hv Hon) as (g & Hg & Hm).
    exists g. split; [exact Hrun | split; [exact Hg | exact Hm]].
Defined.

Lemma call_fails_iff
    (volume : bool -> FlipParticlesSimulation -> Real)
    (c : setter) (s : FlipParticlesSimulation) :
  call volume c s = AssertionFailed <->
  is_mismatched_grid (m_surface s) c = true.
Proof.
  rewrite call_outcome. destruct (is_mismatched_grid _ _); split;
    intros H; try reflexivity; discriminate H.
Qed.

(** X3: a sequence of setter calls stops at an assertion exactly when
    one of the calls is [set_viscosity] with a grid that is not matched
    with the liquid surface the object had at the start; otherwise every
    call returns.  In particular no other setter can fail, and no setter
    changes what a later [set_viscosity] is checked against. *)
Theorem calls_fail_iff
    (volume : bool -> FlipParticlesSimulation -> Real)
    (cs : list setter) (s : FlipParticlesSimulation) :
  (calls volume cs s = AssertionFailed <->
   existsb (is_mismatched_grid (m_surface s)) cs = true) /\
  ((exists s', calls volume cs s = Returned tt s') <->
   existsb (is_mismatched_grid (m_surface s)) cs = false).
Proof.
  assert (Hfail : forall s0,
            calls volume cs s0 = AssertionFailed <->
            existsb (is_mismatched_grid (m_surface s0)) cs = true).
  { induction cs as [|c cs IH]; intros s0.
    - simpl. split; intros H; discriminate H.
    - simpl. unfold bind. rewrite orb_true_iff, <- (call_fails_iff volume).
      destruct (call volume c s0) as [[] s1|] eqn:Hc.
      + rewrite IH.
        destruct (call_keeps_level_sets volume c s0 s1 Hc) as [-> _].
        split; [now right|]. intros [H | H]; [discriminate H | exact H].
      + split; [now left | reflexivity]. }
  split; [apply Hfail|].
  rewrite <- not_true_iff_false, <- Hfail.
  destruct (calls volume cs s) as [[] s'|]; split.
  - intros _ H. discriminate H.
  - intros _. now exists s'.
  - intros [s' H]. discriminate H.
  - intros H. now contradiction H.
Qed.

Lemma calls_fail_iff_witness :
  calls (compute_volume 2)
        [SetSurfaceTension 10; SetViscosityGrid larger_field; SetViscosity 1]
        pool_scene = AssertionFailed /\
  exists s',
    calls (compute_volume 2)
          [SetSurfaceTension 10; SetViscosityGrid matched_field]
          pool_scene = Returned tt s'.
Proof.
  split.
  - apply (proj1 (calls_fail_iff (compute_volume 2)
                    [SetSurfaceTension 10; SetViscosityGrid larger_field;
                     SetViscosity 1] pool_scene)). reflexivity.
  - apply (proj2 (calls_fail_iff (compute_volume 2)
                    [SetSurfaceTension 10; SetViscosityGrid matched_field]
                    pool_scene)). reflexivity.
Defined.

Lemma calls_no_stale_grid
    (volume : bool -> FlipParticlesSimulation -> Real) (cs : list setter) :
  forall s0 s, calls volume cs s0 = Returned tt s ->
    (m_solve_viscosity s0 = false -> m_variableviscosity s0 = None) ->
    m_solve_viscosity s = false -> m_variableviscosity s = None.
Proof.
  induction cs as [|c cs IH]; intros s0 s Hrun H0.
  - inversion Hrun; subst. exact H0.
  - apply calls_cons in Hrun. destruct Hrun as (s1 & Hc & Hcs).
    apply (IH _ _ Hcs). rewrite call_outcome in Hc.
    destruct (is_mismatched_grid _ _); [discriminate|].
    inversion Hc; subst s1. destruct c; simpl; try exact H0;
      intros H; discriminate H.
Qed.

(** X4: on an object that went from the constructor through setter
    calls, the flags tell which data are there: the viscosity solve is on
    exactly when a viscosity grid has been stored, and the volume
    correction is on exactly when the target volume is defined, in which
    case the accumulated error is 0. *)
Theorem flags_tell_data
    (volume : bool -> FlipParticlesSimulation -> Real)
    (xform : Transform) (nx : Vec2st) (nb : N) (cs : list setter)
    (s : FlipParticlesSimulation) :
  calls volume cs (FlipParticlesSimulation_new xform nx nb) = Returned tt s ->
  (m_solve_viscosity s = true <-> m_variableviscosity s <> None) /\
  (m_volume_correction s = true <-> m_target_volume s <> None) /\
  (m_volume_correction s = true <-> m_accum_error s = Some 0) /\
  (m_volume_correction s = false <-> m_accum_error s = None).
Proof.
  intros Hrun. split.
  - pose proof (calls_keep_features_backed volume cs _ _ Hrun) as [Hv _].
    { split; simpl; intros H; discriminate H. }
    pose proof (calls_no_stale_grid volume cs _ _ Hrun (fun _ => eq_refl))
      as Hstale.
    split.
    + intros H. destruct (Hv H) as (g & -> & _). discriminate.
    + intros H. destruct (m_solve_viscosity s); [reflexivity|].
      contradiction H. now apply Hstale.
  - destruct (calls_flags volume cs _ _ Hrun) as (_ & _ & _ & _ & Hflag & _).
    pose proof (calls_bookkeeping volume cs _ _ Hrun) as Hbook.
    simpl in Hflag. rewrite Hflag.
    destruct (existsb is_SetVolumeCorrection cs).
    + destruct Hbook as [[v ->] ->].
      repeat split; intros; congruence.
    + destruct Hbook as [-> ->]. simpl.
      repeat split; intros; congruence.
Qed.

Lemma flags_tell_data_witness :
  exists s,
    calls (compute_volume 2) [SetVolumeCorrection; SetSurfaceTension 10]
          fresh_scene = Returned tt s /\
    (m_solve_viscosity s = true <-> m_variableviscosity s <> None) /\
    (m_volume_correction s = true <-> m_target_volume s <> None).
Proof.
  eexists. split; [reflexivity|].
  destruct (flags_tell_data (compute_volume 2) scene_xform scene_size 10
              [SetVolumeCorrection; SetSurfaceTension 10] _ eq_refl)
    as (Hv & Hc & _).
  split; [exact Hv | exact Hc].
Defined.

(** ** How the setters compose *)

Lemma volume_of_level_sets
    (volume : bool -> FlipParticlesSimulation -> Real)
    (liquid : bool) (s1 s2 : FlipParticlesSimulation) :
  reads_level_sets_only volume ->
  m_surface s1 = m_surface s2 /\ m_air_surface s1 = m_air_surface s2 /\
  m_collision s1 = m_collision s2 ->
  volume liquid s1 = volume liquid s2.
Proof. intros H (H1 & H2 & H3). now apply H. Qed.

(** Brings a run of one or two setter calls to the objects returned. *)
Ltac unfold_calls :=
  unfold call, set_surface_tension, set_enforce_bubbles,
    set_volume_correction, set_viscosity_grid, set_viscosity,
    disable_moving_solids, bind, modify, const_call, assert;
  simpl.

Ltac run_calls :=
  unfold_calls;
  repeat match goal with
    | |- context [is_matched ?l ?g] => destruct (is_matched l g); simpl
    end.

(** Rewrites every volume taken on an object with the level sets of [s]
    to the volume taken on [s]. *)
Ltac volume_at s Hvol :=
  repeat match goal with
    | |- context [?volume ?b ?x] =>
        lazymatch x with
        | s => fail
        | _ => rewrite (volume_of_level_sets volume b x s Hvol)
                 by (simpl; auto)
        end
    end.

(** X5: setters that write different members commute.  Calling two of
    them in either order gives the same outcome, the same object or the
    same failed assertion, provided the volume taken by
    [set_volume_correction] is read off the level sets only. *)
Theorem setters_commute
    (volume : bool -> FlipParticlesSimulation -> Real)
    (c1 c2 : setter) (s : FlipParticlesSimulation) :
  reads_level_sets_only volume ->
  writes c1 <> writes c2 ->
  (call volume c1 ;; call volume c2) s = (call volume c2 ;; call volume c1) s.
Proof.
  intros Hvol Hneq.
  destruct c1, c2; simpl in Hneq; try (now contradiction Hneq);
    run_calls; try reflexivity; volume_at s Hvol; reflexivity.
Qed.

Lemma compute_volume_reads_level_sets (samples : positive) :
  reads_level_sets_only (compute_volume samples).
Proof.
  intros liquid s1 s2 Hl Ha _. unfold compute_volume. now rewrite Hl, Ha.
Qed.

Lemma setters_commute_witness :
  reads_level_sets_only (compute_volume 2) /\
  writes SetVolumeCorrection <> writes (SetViscosityGrid larger_field) /\
  (call (compute_volume 2) SetVolumeCorrection ;;
   call (compute_volume 2) (SetViscosityGrid larger_field)) pool_scene
  = (call (compute_volume 2) (SetViscosityGrid larger_field) ;;
     call (compute_volume 2) SetVolumeCorrection) pool_scene /\
  (call (compute_volume 2) SetVolumeCorrection ;;
   call (compute_volume 2) (SetSurfaceTension 10)) pool_scene
  = (call (compute_volume 2) (SetSurfaceTension 10) ;;
     call (compute_volume 2) SetVolumeCorrection) pool_scene.
Proof.
  split; [apply compute_volume_reads_level_sets|].
  split; [discriminate|]. split.
  - apply (setters_commute (compute_volume 2) SetVolumeCorrection
             (SetViscosityGrid larger_field) pool_scene).
    + apply compute_volume_reads_level_sets.
    + discriminate.
  - apply (setters_commute (compute_volume 2) SetVolumeCorrection
             (SetSurfaceTension 10) pool_scene).
    + apply compute_volume_reads_level_sets.
    + discriminate.
Defined.

(** X6: of two setters that write the same member the later one wins.
    When the first call returns, calling the second after it gives what
    the second alone gives; so every setter is idempotent, a second
    [set_surface_tension] or [set_viscosity] replaces the first, and a
    repeated [set_volume_correction] captures the same target (the volume
    being read off the level sets only). *)
Theorem later_setter_wins
    (volume : bool -> FlipParticlesSimulation -> Real)
    (c1 c2 : setter) (s s1 : FlipParticlesSimulation) :
  reads_level_sets_only volume ->
  writes c1 = writes c2 ->
  call volume c1 s = Returned tt s1 ->
  call volume c2 s1 = call volume c2 s /\
  (call volume c1 ;; call volume c1) s = call volume c1 s.
Proof.
  intros Hvol Heq. rewrite (call_outcome volume c1 s).
  destruct (is_mismatched_grid (m_surface s) c1) eqn:Em; [discriminate|].
  intros Hrun. inversion Hrun; subst s1; clear Hrun. split.
  - destruct c1, c2; simpl in Heq; try discriminate Heq; clear Em;
      run_calls; try reflexivity; volume_at s Hvol; reflexivity.
  - destruct c1; simpl in Em; try apply negb_false_iff in Em;
      unfold_calls; rewrite ?Em; simpl; rewrite ?Em; try reflexivity;
      volume_at s Hvol; reflexivity.
Qed.

Lemma later_setter_wins_witness :
  exists s1,
    call (compute_volume 2) (SetViscosity 4) pool_scene = Returned tt s1 /\
    call (compute_volume 2) (SetViscosityGrid matched_field) s1
    = call (compute_volume 2) (SetViscosityGrid matched_field) pool_scene /\
    (call (compute_volume 2) SetVolumeCorrection ;;
     call (compute_volume 2) SetVolumeCorrection) pool_scene
    = call (compute_volume 2) SetVolumeCorrection pool_scene.
Proof.
  eexists. split; [reflexivity|]. split.
  - apply (later_setter_wins (compute_volume 2) (SetViscosity 4)
             (SetViscosityGrid matched_field) pool_scene).
    + apply compute_volume_reads_level_sets.
    + reflexivity.
    + reflexivity.
  - eapply (later_setter_wins (compute_volume 2) SetVolumeCorrection
              SetVolumeCorrection pool_scene).
    + apply compute_volume_reads_level_sets.
    + reflexivity.
    + reflexivity.
Defined.

(** ** Choosing the substep *)

Lemma cfl_dt_antitone (v1 v2 : Real) :
  0 < v1 -> v1 <= v2 -> cfl_dt v2 <= cfl_dt v1.
Proof.
  intros H1 H12. assert (H2 : 0 < v2) by lra.
  unfold cfl_dt, Qdiv. apply Qmult_le_l; [reflexivity|].
  apply Qle_shift_inv_l; [exact H1|].
  setoid_replace (/ v2 * v1) with (v1 / v2) by (unfold Qdiv; ring).
  apply Qle_shift_div_r; [exact H2 | lra].
Qed.

(** X7: the faster the fluid, the shorter the substep: for one point
    in the frame, a larger velocity magnitude never gives a longer
    substep, across the threshold [1E-10] and the throttling as well. *)
Theorem substep_dt_antitone (v1 v2 frame_time : Real) :
  v1 <= v2 ->
  fst (substep_dt v2 frame_time) <= fst (substep_dt v1 frame_time).
Proof.
  intros H12.
  destruct (substep_dt_cases v1 frame_time)
    as [(Hv1 & Hc1 & E1) | [(Hv1 & Hc1 & E1) | (Hv1 & E1)]];
    rewrite E1; simpl; try apply substep_dt_le_remaining.
  pose proof (cfl_dt_antitone v1 v2 (threshold_positive _ Hv1) H12) as Hc.
  destruct (substep_dt_cases v2 frame_time)
    as [(Hv2 & Hc2 & E2) | [(Hv2 & Hc2 & E2) | (Hv2 & E2)]];
    rewrite E2; simpl; lra.
Qed.

Lemma substep_dt_antitone_witness :
  fst (substep_dt 4 0) <= fst (substep_dt (1 / 2) 0) /\
  fst (substep_dt 1 0) <= fst (substep_dt 1E-11 0).
Proof.
  split.
  - apply (substep_dt_antitone (1 / 2) 4 0). discriminate.
  - apply (substep_dt_antitone 1E-11 1 0). discriminate.
Defined.

(** ** Keys, drawing and screenshots *)

Section InteractiveFacts.

Import Ascii String.

Variables Sim Renderer : Type.
Variable max_vel_mag : Sim -> Real.
Variable add_force : Vec2R -> Real -> Sim -> Sim.
Variable run_simulation : Real -> Renderer -> Sim -> Sim * Renderer.
Variable clear : Renderer -> Renderer.
Variable draw_surface : Sim -> Renderer -> Sim * Renderer.
Variable draw_air : Sim -> Renderer -> Sim * Renderer.
Variable draw_collision : Sim -> Renderer -> Sim * Renderer.
Variable sgi_screenshot : string -> Z -> Renderer -> Renderer.

Local Notation "'show'" :=
  (display Sim Renderer max_vel_mag add_force run_simulation clear
           draw_surface draw_air draw_collision sgi_screenshot).
Local Notation "'key_pressed'" := (keyboard Sim Renderer).

Lemma string_length_append (s1 s2 : string) :
  String.length (s1 ++ s2)%string
  = (String.length s1 + String.length s2)%nat.
Proof. induction s1 as [|c s1 IH]; simpl; [|rewrite IH]; reflexivity. Qed.

Lemma screenshot_format_fits (dir : string) :
  screenshot_format dir = Some (dir ++ "/screenshot%04d.sgi")%string.
Proof.
  unfold screenshot_format, sprintf_s. cbn [format_s option_map].
  rewrite string_length_append.
  replace (_ <? _)%nat with true; [reflexivity|].
  symmetry. apply Nat.ltb_lt. simpl. lia.
Qed.

(** X13: the keys.  Space toggles [g_run] and [p] toggles
    [g_print_screen], so pressing either twice changes nothing; [n] asks
    for a single step, once or more often alike; every other key is
    ignored; and no key touches the simulation, the renderer, the frame
    counter or the out-of-date flag. *)
Theorem keyboard_toggles (key : ascii) (x y x' y' : Z)
    (d : Display Sim Renderer) :
  key_pressed " " x' y' (key_pressed " " x y d) = d /\
  key_pressed "p" x' y' (key_pressed "p" x y d) = d /\
  key_pressed "n" x' y' (key_pressed "n" x y d) = key_pressed "n" x y d /\
  (key <> " "%char -> key <> "n"%char -> key <> "p"%char ->
   key_pressed key x y d = d) /\
  (g_sim _ _ (d_globals (key_pressed key x y d)) = g_sim _ _ (d_globals d) /\
   g_renderer _ _ (d_globals (key_pressed key x y d))
   = g_renderer _ _ (d_globals d) /\
   g_dirty_display _ _ (d_globals (key_pressed key x y d))
   = g_dirty_display _ _ (d_globals d) /\
   g_frame_count (key_pressed key x y d) = g_frame_count d).
Proof.
  destruct d as [[r sim run single dirty first] shot count].
  unfold keyboard, with_globals; simpl.
  split; [now rewrite negb_involutive|].
  split; [now destruct shot|].
  split; [reflexivity|].
  split.
  - intros H1 H2 H3.
    apply Ascii.eqb_neq in H1, H2, H3. now rewrite H1, H2, H3.
  - destruct (key =? " ")%char; [conjuncts|].
    destruct (key =? "n")%char; [conjuncts|].
    destruct (key =? "p")%char; conjuncts.
Qed.

Lemma body_keeps_run (st : LoopState Sim Renderer) :
  g_run _ _ (globals (snd (loop_body Sim Renderer max_vel_mag add_force
                                     run_simulation clear st)))
  = g_run _ _ (globals st).
Proof.
  unfold loop_body. destruct (substep_dt _ _) as [dt throttled].
  destruct (Real_leb dt 0); [reflexivity|].
  destruct (run_simulation _ _ _). reflexivity.
Qed.

Lemma loop_keeps_run (fuel : nat) :
  forall st : LoopState Sim Renderer,
    g_run _ _ (globals (snd (substep_loop Sim Renderer max_vel_mag add_force
                                          run_simulation clear fuel st)))
    = g_run _ _ (globals st).
Proof.
  induction fuel as [|fuel IH]; intros st; simpl; [reflexivity|].
  destruct (Real_ltb _ _); [|reflexivity].
  pose proof (body_keeps_run st) as Hb.
  destruct (loop_body _ _ _ _ _ _ st) as [[|] st']; simpl in *.
  - now rewrite IH.
  - exact Hb.
Qed.

(** What a call of [display] that returns leaves behind. *)
Lemma display_post (fuel : nat) (d d' : Display Sim Renderer)
    (requests : list request) (drawings : list drawing) :
  show fuel d = Displayed _ _ d' requests drawings ->
  g_run _ _ (d_globals d') = g_run _ _ (d_globals d) /\
  g_single_run _ _ (d_globals d') = false /\
  g_dirty_display _ _ (d_globals d') = false /\
  g_print_screen d' = g_print_screen d /\
  g_frame_count d'
  = (g_frame_count d + if draws _ _ d then 1 else 0)%Z /\
  drawings
  = (if draws _ _ d then
       DrawSurface :: DrawAir :: DrawCollision
       :: (if g_print_screen d
           then [SgiScreenshot "d:/output//screenshot%04d.sgi"
                               (g_frame_count d)]
           else [])
     else []) /\
  (g_run _ _ (d_globals d) || g_single_run _ _ (d_globals d) = false ->
   requests = []) /\
  (draws _ _ d = false -> d' = d).
Proof.
  destruct d as [[r sim run single dirty first] shot count].
  unfold display, display_simulate, draws; simpl.
  destruct (run || single) eqn:Hrun.
  - pose proof (loop_keeps_run fuel
                  {| globals := {| g_renderer := r; g_sim := sim;
                                   g_run := run; g_single_run := single;
                                   g_dirty_display := dirty;
                                   g_first_sim := first |};
                     frame_time := 0; log := [] |}) as Hkeep.
    destruct (substep_loop _ _ _ _ _ _ fuel _) as [[|] st];
      [|discriminate]. simpl in Hkeep.
    unfold display_draw. rewrite screenshot_format_fits. simpl.
    destruct (draw_surface _ _) as [sim1 r1].
    destruct (draw_air _ _) as [sim2 r2].
    destruct (draw_collision _ _) as [sim3 r3].
    destruct shot; (destruct (count <? INT_MAX)%Z; [|discriminate]);
      intros H; inversion H; subst; simpl; conjuncts;
      try exact Hkeep; intros E; discriminate E.
  - apply orb_false_iff in Hrun. destruct Hrun as [-> ->].
    unfold display_draw. rewrite screenshot_format_fits. simpl.
    destruct dirty; simpl.
    + destruct (draw_surface _ _) as [sim1 r1].
      destruct (draw_air _ _) as [sim2 r2].
      destruct (draw_collision _ _) as [sim3 r3].
      destruct shot; (destruct (count <? INT_MAX)%Z; [|discriminate]);
        intros H; inversion H; subst; simpl; conjuncts;
        intros E; discriminate E.
    + intros H; inversion H; subst; simpl. rewrite Z.add_0_r. conjuncts.
Qed.

(** X14: what a call of [display] that returns has done.  It leaves
    [g_run] and [g_print_screen] alone, clears [g_single_run] and the
    out-of-date flag, and draws (surface, air, collision, in this order)
    exactly when the simulation runs, a single step is pending or the
    picture is out of date; only then does the frame counter go up, by
    one, and only then is a screenshot taken when screenshots are on,
    numbered with the counter before the increment. *)
Theorem display_effect (fuel : nat) (d d' : Display Sim Renderer)
    (requests : list request) (drawings : list drawing) :
  show fuel d = Displayed _ _ d' requests drawings ->
  g_run _ _ (d_globals d') = g_run _ _ (d_globals d) /\
  g_single_run _ _ (d_globals d') = false /\
  g_dirty_display _ _ (d_globals d') = false /\
  g_print_screen d' = g_print_screen d /\
  g_frame_count d'
  = (g_frame_count d + if draws _ _ d then 1 else 0)%Z /\
  drawings
  = (if draws _ _ d then
       DrawSurface :: DrawAir :: DrawCollision
       :: (if g_print_screen d
           then [SgiScreenshot "d:/output//screenshot%04d.sgi"
                               (g_frame_count d)]
           else [])
     else []) /\
  (g_run _ _ (d_globals d) || g_single_run _ _ (d_globals d) = false ->
   requests = []) /\
  (draws _ _ d = false -> d' = d).
Proof. apply display_post. Qed.

(** X16: the screenshot name always fits its buffer.  For every output
    directory, [sprintf_s] into [strlen(dir) + 50] bytes returns the
    directory followed by [/screenshot%04d.sgi] (19 characters); so
    [display] returns normally whenever the frame counter is below
    [INT_MAX] and the substep loop ends. *)
Theorem screenshot_name_fits (dir : string) (fuel : nat)
    (d : Display Sim Renderer) :
  screenshot_format dir = Some (dir ++ "/screenshot%04d.sgi")%string /\
  ((g_frame_count d < INT_MAX)%Z -> show fuel d <> Aborted _ _).
Proof.
  split; [apply screenshot_format_fits|].
  intros Hcount. apply Z.ltb_lt in Hcount.
  destruct d as [[r sim run single dirty first] shot count].
  unfold display, display_simulate; simpl in *.
  destruct (run || single).
  - destruct (substep_loop _ _ _ _ _ _ fuel _) as [[|] st];
      [|discriminate].
    unfold display_draw. rewrite screenshot_format_fits. simpl.
    destruct (draw_surface _ _) as [sim1 r1].
    destruct (draw_air _ _) as [sim2 r2].
    destruct (draw_collision _ _) as [sim3 r3].
    rewrite Hcount. destruct shot; discriminate.
  - unfold display_draw. rewrite screenshot_format_fits. simpl.
    destruct dirty; [|discriminate].
    destruct (draw_surface _ _) as [sim1 r1].
    destruct (draw_air _ _) as [sim2 r2].
    destruct (draw_collision _ _) as [sim3 r3].
    rewrite Hcount. destruct shot; discriminate.
Qed.

End InteractiveFacts.

Section InteractiveRuns.

Import Ascii String.

Lemma keyboard_toggles_witness :
  keyboard Real unit "q" 3 4 toy_paused = toy_paused /\
  keyboard Real unit " " 0 0 (keyboard Real unit " " 3 4 toy_paused)
  = toy_paused.
Proof.
  destruct (keyboard_toggles Real unit "q" 3 4 0 0 toy_paused)
    as (Hspace & _ & _ & Hother & _).
  split; [|exact Hspace].
  apply Hother; discriminate.
Defined.

Lemma display_effect_witness :
  exists d' requests drawings,
    toy_show 5 toy_paused = Displayed Real unit d' requests drawings /\
    g_frame_count d' = 8%Z /\
    drawings = [DrawSurface; DrawAir; DrawCollision;
                SgiScreenshot "d:/output//screenshot%04d.sgi" 7] /\
    requests = [].
Proof.
  assert (H : exists d' requests drawings,
            toy_show 5 toy_paused = Displayed Real unit d' requests drawings)
    by (do 3 eexists; reflexivity).
  destruct H as (d' & requests & drawings & H).
  exists d', requests, drawings. split; [exact H|].
  destruct (display_effect Real unit _ _ _ _ _ _ _ _ _ _ _ _ _ H)
    as (_ & _ & _ & _ & Hcount & Hdraw & Hreq & _).
  split; [exact Hcount|]. split; [exact Hdraw|]. now apply Hreq.
Defined.

Lemma screenshot_name_fits_witness :
  (g_frame_count toy_paused < INT_MAX)%Z /\
  toy_show 5 toy_paused <> Aborted Real unit.
Proof.
  split; [reflexivity|].
  apply (screenshot_name_fits Real unit _ _ _ _ _ _ _ _ output_dir 5
           toy_paused).
  reflexivity.
Defined.

End InteractiveRuns.

(** * The driver in machine arithmetic *)

Section FpLoop.

Variable A : Fp.arithmetic.
Variables Sim Renderer : Type.
Variable max_vel_mag : Sim -> Fp.num A.
Variable add_force : Fp.num A * Fp.num A -> Fp.num A -> Sim -> Sim.
Variable run_simulation : Fp.num A -> Renderer -> Sim -> Sim * Renderer.
Variable clear : Renderer -> Renderer.

Local Notation "'body'" :=
  (Fp.loop_body A Sim Renderer max_vel_mag add_force run_simulation clear).
Local Notation "'loop'" :=
  (Fp.substep_loop A Sim Renderer max_vel_mag add_force run_simulation clear).
Local Notation "'state'" := (Fp.LoopState (Fp.num A) Sim Renderer).
Local Notation "'pass_dt'" := (Fp.pass_dt A Sim Renderer max_vel_mag).
Local Notation "'pass_velmag'" := (Fp.pass_velmag A Sim Renderer max_vel_mag).
Local Notation "'pass_printed'" :=
  (Fp.pass_printed A Sim Renderer max_vel_mag).
Local Notation "'zero'" := (Fp.lit A 0).
Local Notation "'remaining' st" :=
  (Fp.sub A (Fp.g_dt A) (Fp.frame_time st)) (at level 10).

Lemma fp_body_break (st : state) :
  Fp.leb A (pass_dt st) zero = true ->
  fst (body st) = Break /\
  Fp.frame_time (snd (body st)) = Fp.add A (Fp.frame_time st) (pass_dt st) /\
  Fp.log (snd (body st)) = Fp.log st ++ Fp.Clear :: pass_printed st.
Proof.
  intros H. unfold Fp.loop_body, Fp.pass_printed, Fp.pass_dt, Fp.pass_velmag in *.
  destruct (Fp.substep_dt _ _ _) as [dt throttled]; simpl in *.
  rewrite H. simpl. conjuncts.
Qed.

Lemma fp_body_continue (st : state) :
  Fp.leb A (pass_dt st) zero = false ->
  fst (body st) = Continue /\
  Fp.frame_time (snd (body st)) = Fp.add A (Fp.frame_time st) (pass_dt st) /\
  Fp.log (snd (body st))
  = Fp.log st ++ Fp.Clear :: pass_printed st ++ Fp.substep_calls A (pass_dt st).
Proof.
  intros H. unfold Fp.loop_body, Fp.pass_printed, Fp.pass_dt, Fp.pass_velmag in *.
  destruct (Fp.substep_dt _ _ _) as [dt throttled]; simpl in *.
  rewrite H. destruct (run_simulation _ _ _). simpl. conjuncts.
Qed.

Lemma fp_pass_dt_throttled (st : state) :
  pass_dt st = remaining st \/
  Fp.ltb A (remaining st) (pass_dt st) = false.
Proof.
  unfold Fp.pass_dt, Fp.substep_dt.
  destruct (Fp.ltb A (Fp.lit A 1E-10) _); [|now left].
  destruct (Fp.ltb A _ (Fp.cfl_dt A _)) eqn:E; [now left | now right].
Qed.

Lemma fp_pass_printed_guarded (st : state) :
  Forall (Fp.guarded A) (pass_printed st) /\
  filter Fp.is_simulation_request (pass_printed st) = [].
Proof.
  unfold Fp.pass_printed. destruct (snd _); split; auto.
  constructor; [exact I | constructor].
Qed.

Lemma fp_body_guarded (st : state) :
  Forall (Fp.guarded A) (Fp.log st) -> Forall (Fp.guarded A) (Fp.log (snd (body st))).
Proof.
  intros Hlog.
  destruct (Fp.leb A (pass_dt st) zero) eqn:Hdt.
  - destruct (fp_body_break st Hdt) as (_ & _ & ->).
    apply Forall_app. split; [exact Hlog|].
    constructor; [exact I | apply fp_pass_printed_guarded].
  - destruct (fp_body_continue st Hdt) as (_ & _ & ->).
    apply Forall_app. split; [exact Hlog|].
    constructor; [exact I|]. apply Forall_app. split.
    + apply fp_pass_printed_guarded.
    + constructor; [split; reflexivity|].
      constructor; [exact Hdt | constructor].
Qed.

Lemma fp_loop_guarded (fuel : nat) :
  forall st : state,
    Forall (Fp.guarded A) (Fp.log st) ->
    Forall (Fp.guarded A) (Fp.log (snd (loop fuel st))).
Proof.
  induction fuel as [|fuel IH]; intros st Hlog; simpl; [exact Hlog|].
  destruct (Fp.ltb A (Fp.frame_time st) (Fp.g_dt A)); [|exact Hlog].
  pose proof (fp_body_guarded st Hlog) as Hlog'.
  destruct (body st) as [[|] st']; simpl in *.
  - now apply IH.
  - exact Hlog'.
Qed.

Lemma fp_loop_idle (fuel : nat) (st : state) :
  Fp.ltb A (Fp.frame_time st) (Fp.g_dt A) = false ->
  loop fuel st = (true, st).
Proof. intros H. destruct fuel; simpl; rewrite H; reflexivity. Qed.

(** C5, as amended: a pass of the loop whose substep satisfies
    [dt <= 0] leaves the loop with no request to the simulation; a pass
    that goes on calls [add_force] with the whole frame time [g_dt] and
    then [run_simulation] with its substep, for which [dt <= 0] is false.
    So, however far the loop has run, [run_simulation] was never given a
    substep that is not positive.  The accumulated [frame_time] is below
    [g_dt] when a pass is made (the loop makes none otherwise), and the
    substep added to it is the remaining time [g_dt - frame_time] or is
    not greater than it, both as computed; the sum is rounded and is not
    bounded by [g_dt].  This holds in every arithmetic. *)
Theorem substep_loop_guarded (fuel : nat) (g : Globals Sim Renderer) :
  (forall st : state,
     Fp.leb A (pass_dt st) zero = true ->
     fst (body st) = Break /\
     Fp.log (snd (body st)) = Fp.log st ++ Fp.Clear :: pass_printed st) /\
  (forall st : state,
     fst (body st) = Continue ->
     Fp.leb A (pass_dt st) zero = false /\
     Fp.log (snd (body st))
     = Fp.log st ++ Fp.Clear :: pass_printed st
              ++ Fp.substep_calls A (pass_dt st)) /\
  Forall (Fp.guarded A)
         (Fp.log (snd (loop fuel (Fp.frame_start A Sim Renderer g)))) /\
  (forall (fuel' : nat) (st : state),
     Fp.ltb A (Fp.frame_time st) (Fp.g_dt A) = false ->
     loop fuel' st = (true, st)) /\
  (forall st : state,
     Fp.frame_time (snd (body st))
     = Fp.add A (Fp.frame_time st) (pass_dt st) /\
     (pass_dt st = remaining st \/
      Fp.ltb A (remaining st) (pass_dt st) = false)).
Proof.
  split; [|split; [|split; [|split]]].
  - intros st H. destruct (fp_body_break st H) as (Hb & _ & Hl).
    split; assumption.
  - intros st H. destruct (Fp.leb A (pass_dt st) zero) eqn:Hdt.
    + destruct (fp_body_break st Hdt) as (Hb & _). rewrite Hb in H.
      discriminate H.
    + destruct (fp_body_continue st Hdt) as (_ & _ & Hl).
      split; [reflexivity | exact Hl].
  - apply fp_loop_guarded. constructor.
  - intros fuel' st. apply fp_loop_idle.
  - intros st. split; [|apply fp_pass_dt_throttled].
    destruct (Fp.leb A (pass_dt st) zero) eqn:Hdt.
    + now destruct (fp_body_break st Hdt) as (_ & Hf & _).
    + now destruct (fp_body_continue st Hdt) as (_ & Hf & _).
Qed.

Lemma fp_loop_grows (fuel : nat) :
  forall st : state,
    exists rest dts,
      Fp.log (snd (loop fuel st)) = Fp.log st ++ rest /\
      filter Fp.is_simulation_request rest = flat_map (Fp.substep_calls A) dts /\
      Forall (fun dt => Fp.leb A dt zero = false) dts.
Proof.
  induction fuel as [|fuel IH]; intros st.
  - exists [], []. simpl. rewrite app_nil_r. conjuncts. constructor.
  - simpl. destruct (Fp.ltb A (Fp.frame_time st) (Fp.g_dt A)).
    2:{ exists [], []. simpl. rewrite app_nil_r. conjuncts. constructor. }
    destruct (Fp.leb A (pass_dt st) zero) eqn:Hdt.
    + destruct (fp_body_break st Hdt) as (Hb & _ & Hl).
      destruct (body st) as [c st']; simpl in *. subst c.
      exists (Fp.Clear :: pass_printed st), []. simpl.
      rewrite (proj2 (fp_pass_printed_guarded st)).
      split; [exact Hl | split; [reflexivity | constructor]].
    + destruct (fp_body_continue st Hdt) as (Hb & _ & Hl).
      destruct (body st) as [c st']; simpl in *. subst c.
      destruct (IH st') as (rest & dts & Hgrow & Hsim & Hpos).
      exists (Fp.Clear :: pass_printed st ++ Fp.substep_calls A (pass_dt st)
                       ++ rest), (pass_dt st :: dts).
      split; [|split; [|constructor; assumption]].
      * rewrite Hgrow, Hl, <- app_assoc. simpl. now rewrite <- app_assoc.
      * simpl. rewrite !filter_app, (proj2 (fp_pass_printed_guarded st)).
        simpl. now rewrite Hsim.
Qed.

(** X10: [add_force] is called once per substep, just before
    [run_simulation], and is always given the force (0, -1) and the whole
    frame time [g_dt], not the substep: the requests of a frame that reach
    the simulation are, for the substeps [dts] taken, the pairs
    [add_force((0, -1), g_dt)], [run_simulation(dt)].  This holds in every
    arithmetic. *)
Theorem force_uses_frame_time (fuel : nat) (g : Globals Sim Renderer) :
  exists dts,
    filter Fp.is_simulation_request
           (Fp.log (snd (loop fuel (Fp.frame_start A Sim Renderer g))))
    = flat_map (fun dt => [Fp.AddForce (Fp.lit A 0, Fp.lit A (-1)) (Fp.g_dt A);
                           Fp.RunSimulation dt]) dts /\
    Forall (fun dt => Fp.leb A dt zero = false) dts.
Proof.
  destruct (fp_loop_grows fuel (Fp.frame_start A Sim Renderer g))
    as (rest & dts & Hgrow & Hsim & Hpos).
  exists dts. rewrite Hgrow. simpl. split; [exact Hsim | exact Hpos].
Qed.

End FpLoop.

(** In double precision an infinite magnitude gives a substep of 0 and
    the first pass breaks; magnitudes 8.375 then 0.1 give two substeps. *)
Lemma substep_loop_guarded_witness :
  (let st := Fp.frame_start Fp.binary64 Fp.scripted unit
               {| g_renderer := tt; g_sim := [SpecFloat.S754_infinity false];
                  g_run := true; g_single_run := false;
                  g_dirty_display := true; g_first_sim := false |} in
   Fp.ltb Fp.binary64 (Fp.frame_time st) (Fp.g_dt Fp.binary64) = true /\
   Fp.leb Fp.binary64
          (Fp.pass_dt Fp.binary64 Fp.scripted unit Fp.scripted_max_vel_mag st)
          (Fp.lit Fp.binary64 0) = true /\
   fst (Fp.loop_body Fp.binary64 Fp.scripted unit Fp.scripted_max_vel_mag
                     (fun _ _ s => s) Fp.scripted_run_simulation
                     (fun r => r) st) = Break) /\
  Forall (Fp.guarded Fp.binary64) (Fp.log (snd (Fp.scripted_loop 3 Fp.gust))) /\
  length (Fp.log (snd (Fp.scripted_loop 3 Fp.gust))) = 7%nat /\
  Fp.leb Fp.binary64 (Fp.g_dt Fp.binary64) (Fp.lit Fp.binary64 0) = false.
Proof.
  pose proof (substep_loop_guarded Fp.binary64 Fp.scripted unit
                Fp.scripted_max_vel_mag (fun _ _ s => s)
                Fp.scripted_run_simulation (fun r => r) 3
                {| g_renderer := tt; g_sim := Fp.gust; g_run := true;
                   g_single_run := false; g_dirty_display := true;
                   g_first_sim := false |})
    as (Hbreak & _ & Hlog & _).
  split; [|split; [exact Hlog | split; vm_compute; reflexivity]].
  cbv zeta. split; [vm_compute; reflexivity|].
  assert (Hdt : Fp.leb Fp.binary64
            (Fp.pass_dt Fp.binary64 Fp.scripted unit Fp.scripted_max_vel_mag
               (Fp.frame_start Fp.binary64 Fp.scripted unit
                  {| g_renderer := tt;
                     g_sim := [SpecFloat.S754_infinity false];
                     g_run := true; g_single_run := false;
                     g_dirty_display := true; g_first_sim := false |}))
            (Fp.lit Fp.binary64 0) = true) by (vm_compute; reflexivity).
  split; [exact Hdt|]. exact (proj1 (Hbreak _ Hdt)).
Defined.

(** C5 as stated fails in double precision: with magnitudes 8.375 and
    then 0.1 the loop is left after two substeps with [frame_time] above
    [g_dt]. *)
Lemma frame_time_overshoots :
  fst (Fp.scripted_loop 3 Fp.gust) = true /\
  Fp.ltb Fp.binary64 (Fp.g_dt Fp.binary64)
         (Fp.frame_time (snd (Fp.scripted_loop 3 Fp.gust))) = true /\
  Fp.leb Fp.binary64 (Fp.frame_time (snd (Fp.scripted_loop 3 Fp.gust)))
         (Fp.g_dt Fp.binary64) = false.
Proof. vm_compute. conjuncts. Qed.

Lemma force_uses_frame_time_witness :
  exists dts,
    filter Fp.is_simulation_request
           (Fp.log (snd (Fp.scripted_loop 3 Fp.gust)))
    = flat_map (fun dt => [Fp.AddForce (Fp.lit Fp.binary64 0,
                                        Fp.lit Fp.binary64 (-1))
                                       (Fp.g_dt Fp.binary64);
                           Fp.RunSimulation dt]) dts /\
    Forall (fun dt => Fp.leb Fp.binary64 dt (Fp.lit Fp.binary64 0) = false)
           dts.
Proof.
  exact (force_uses_frame_time Fp.binary64 Fp.scripted unit
           Fp.scripted_max_vel_mag (fun _ _ s => s)
           Fp.scripted_run_simulation (fun r => r) 3
           {| g_renderer := tt; g_sim := Fp.gust; g_run := true;
              g_single_run := false; g_dirty_display := true;
              g_first_sim := false |}).
Defined.

Section FpDisplay.

Import Ascii String.

Variable A : Fp.arithmetic.
Variables Sim Renderer : Type.
Variable max_vel_mag : Sim -> Fp.num A.
Variable add_force : Fp.num A * Fp.num A -> Fp.num A -> Sim -> Sim.
Variable run_simulation : Fp.num A -> Renderer -> Sim -> Sim * Renderer.
Variable clear : Renderer -> Renderer.
Variable draw_surface : Sim -> Renderer -> Sim * Renderer.
Variable draw_air : Sim -> Renderer -> Sim * Renderer.
Variable draw_collision : Sim -> Renderer -> Sim * Renderer.
Variable sgi_screenshot : string -> Z -> Renderer -> Renderer.

Local Notation "'body'" :=
  (Fp.loop_body A Sim Renderer max_vel_mag add_force run_simulation clear).
Local Notation "'loop'" :=
  (Fp.substep_loop A Sim Renderer max_vel_mag add_force run_simulation clear).
Local Notation "'state'" := (Fp.LoopState (Fp.num A) Sim Renderer).
Local Notation "'pass_dt'" := (Fp.pass_dt A Sim Renderer max_vel_mag).
Local Notation "'pass_printed'" :=
  (Fp.pass_printed A Sim Renderer max_vel_mag).
Local Notation "'show'" :=
  (Fp.display A Sim Renderer max_vel_mag add_force run_simulation clear
              draw_surface draw_air draw_collision sgi_screenshot).

Lemma fp_body_keeps_run (st : state) :
  g_run _ _ (Fp.globals (snd (body st))) = g_run _ _ (Fp.globals st).
Proof.
  unfold Fp.loop_body. destruct (Fp.substep_dt _ _ _) as [dt throttled].
  destruct (Fp.leb A dt _); [reflexivity|].
  destruct (run_simulation _ _ _). reflexivity.
Qed.

Lemma fp_loop_keeps_run (fuel : nat) :
  forall st : state,
    g_run _ _ (Fp.globals (snd (loop fuel st))) = g_run _ _ (Fp.globals st).
Proof.
  induction fuel as [|fuel IH]; intros st; simpl; [reflexivity|].
  destruct (Fp.ltb A _ _); [|reflexivity].
  pose proof (fp_body_keeps_run st) as Hb.
  destruct (body st) as [[|] st']; simpl in *.
  - now rewrite IH.
  - exact Hb.
Qed.

Lemma fp_display_idle (fuel : nat) (d : Display Sim Renderer) :
  draws _ _ d = false -> show fuel d = Fp.Displayed d [] [].
Proof.
  destruct d as [[r sim run single dirty first] shot count].
  unfold draws; simpl. intros H.
  apply orb_false_iff in H. destruct H as [H ->].
  apply orb_false_iff in H. destruct H as [-> ->].
  reflexivity.
Qed.

(** The first pass of a frame, as the loop logs it. *)
Lemma fp_loop_first_pass (fuel : nat) (st : state) :
  Fp.ltb A (Fp.frame_time st) (Fp.g_dt A) = true ->
  exists rest,
    Fp.log (snd (loop (S fuel) st))
    = Fp.log st ++ Fp.Clear :: pass_printed st
             ++ (if Fp.leb A (pass_dt st) (Fp.lit A 0) then []
                 else Fp.substep_calls A (pass_dt st) ++ rest).
Proof.
  intros Hin. simpl. rewrite Hin.
  destruct (Fp.leb A (pass_dt st) (Fp.lit A 0)) eqn:Hdt.
  - destruct (fp_body_break _ _ _ max_vel_mag add_force run_simulation clear
                st Hdt) as (Hb & _ & Hl).
    destruct (body st) as [c st']; simpl in *. subst c.
    exists []. now rewrite app_nil_r.
  - destruct (fp_body_continue _ _ _ max_vel_mag add_force run_simulation
                clear st Hdt) as (Hb & _ & Hl).
    destruct (body st) as [c st']; simpl in *. subst c.
    destruct (fp_loop_grows _ _ _ max_vel_mag add_force run_simulation clear
                fuel st') as (rest & _ & Hgrow & _).
    exists rest. rewrite Hgrow, Hl, <- !app_assoc. simpl.
    now rewrite <- app_assoc.
Qed.

Lemma fp_display_running (fuel : nat) (d d1 : Display Sim Renderer)
    (requests : list (Fp.request (Fp.num A))) (drawings : list drawing) :
  g_run _ _ (d_globals d) || g_single_run _ _ (d_globals d) = true ->
  show fuel d = Fp.Displayed d1 requests drawings ->
  exists st,
    loop fuel (Fp.frame_start A Sim Renderer (d_globals d)) = (true, st) /\
    requests = Fp.log st /\
    g_run _ _ (d_globals d1) = g_run _ _ (Fp.globals st) /\
    g_single_run _ _ (d_globals d1) = false /\
    g_dirty_display _ _ (d_globals d1) = false /\
    g_frame_count d1 = (g_frame_count d + 1)%Z /\
    drawings
    = DrawSurface :: DrawAir :: DrawCollision
      :: (if g_print_screen d
          then [SgiScreenshot "d:/output//screenshot%04d.sgi"
                              (g_frame_count d)]
          else []).
Proof.
  destruct d as [[r sim run single dirty first] shot count].
  unfold Fp.display, Fp.display_simulate; simpl. intros ->.
  destruct (Fp.substep_loop _ _ _ _ _ _ _ fuel _) as [[|] st];
    [|discriminate].
  unfold Fp.display_draw.
  rewrite (screenshot_format_fits output_dir). simpl.
  destruct (draw_surface _ _) as [sim1 r1].
  destruct (draw_air _ _) as [sim2 r2].
  destruct (draw_collision _ _) as [sim3 r3].
  destruct shot; (destruct (count <? INT_MAX)%Z; [|discriminate]);
    intros H; inversion H; subst; exists st; simpl; conjuncts.
Qed.

(** X15: single stepping.  With the simulation paused, a press of [n]
    followed by [display] runs the substep loop: its first pass clears the
    renderer and, unless its substep satisfies [dt <= 0], calls
    [add_force] and [run_simulation] with it; the call then draws one
    frame and the frame counter goes up by one.  Further calls of
    [display] do nothing: no request, nothing drawn, no global changed.
    This holds in every arithmetic in which [0 < g_dt]. *)
Theorem single_step (fuel : nat) (x y : Z)
    (d d1 : Display Sim Renderer)
    (requests : list (Fp.request (Fp.num A))) (drawings : list drawing) :
  Fp.ltb A (Fp.lit A 0) (Fp.g_dt A) = true ->
  g_run _ _ (d_globals d) = false ->
  show fuel (keyboard Sim Renderer "n" x y d)
  = Fp.Displayed d1 requests drawings ->
  let first :=
    Fp.frame_start A Sim Renderer
                   (d_globals (keyboard Sim Renderer "n" x y d)) in
  (exists rest,
     requests
     = Fp.Clear :: pass_printed first
       ++ (if Fp.leb A (pass_dt first) (Fp.lit A 0) then []
           else [Fp.AddForce (Fp.lit A 0, Fp.lit A (-1)) (Fp.g_dt A);
                 Fp.RunSimulation (pass_dt first)] ++ rest)) /\
  g_frame_count d1 = (g_frame_count d + 1)%Z /\
  drawings
  = DrawSurface :: DrawAir :: DrawCollision
    :: (if g_print_screen d
        then [SgiScreenshot "d:/output//screenshot%04d.sgi"
                            (g_frame_count d)]
        else []) /\
  (forall fuel', show fuel' d1 = Fp.Displayed d1 [] []).
Proof.
  intros Hframe Hpaused Hshow. cbv zeta.
  assert (Hkey : g_run _ _ (d_globals (keyboard Sim Renderer "n" x y d))
                 = false /\
                 g_single_run _ _ (d_globals (keyboard Sim Renderer "n" x y d))
                 = true /\
                 g_print_screen (keyboard Sim Renderer "n" x y d)
                 = g_print_screen d /\
                 g_frame_count (keyboard Sim Renderer "n" x y d)
                 = g_frame_count d).
  { destruct d as [[r sim run single dirty first] shot count].
    simpl in *. conjuncts. exact Hpaused. }
  destruct Hkey as (Hrun & Hsingle & Hshot & Hcount).
  destruct (fp_display_running fuel _ _ _ _
              ltac:(rewrite Hsingle; apply orb_true_r) Hshow)
    as (st & Hloop & -> & Hrun1 & Hsingle1 & Hdirty1 & Hcount1 & Hdraw).
  rewrite Hshot in Hdraw. rewrite Hcount in Hcount1, Hdraw.
  split; [|split; [exact Hcount1 | split; [exact Hdraw|]]].
  - destruct fuel as [|fuel].
    + simpl in Hloop. rewrite Hframe in Hloop. discriminate Hloop.
    + destruct (fp_loop_first_pass fuel
                  (Fp.frame_start A Sim Renderer
                     (d_globals (keyboard Sim Renderer "n" x y d))) Hframe)
        as (rest & Hlog).
      rewrite Hloop in Hlog. simpl in Hlog. exists rest. exact Hlog.
  - intros fuel'. apply fp_display_idle. unfold draws.
    rewrite Hrun1, Hsingle1, Hdirty1.
    pose proof (fp_loop_keeps_run fuel
                  (Fp.frame_start A Sim Renderer
                     (d_globals (keyboard Sim Renderer "n" x y d)))) as Hkeep.
    rewrite Hloop in Hkeep. unfold Fp.frame_start in Hkeep.
    cbn [snd Fp.globals] in Hkeep. rewrite Hkeep, Hrun. reflexivity.
Qed.

End FpDisplay.

Section FpRuns.

Import Ascii String.

Lemma single_step_witness :
  Fp.ltb Fp.binary64 (Fp.lit Fp.binary64 0) (Fp.g_dt Fp.binary64) = true /\
  g_run _ _ (d_globals scripted_paused) = false /\
  scripted_show 3 (keyboard Fp.scripted unit "n" 0 0 scripted_paused)
  = Fp.Displayed stepped stepped_requests
                 [DrawSurface; DrawAir; DrawCollision] /\
  (exists rest, stepped_requests = Fp.Clear :: rest) /\
  g_frame_count stepped = 8%Z /\
  scripted_show 3 stepped = Fp.Displayed stepped [] [].
Proof.
  assert (Hframe : Fp.ltb Fp.binary64 (Fp.lit Fp.binary64 0)
                          (Fp.g_dt Fp.binary64) = true)
    by (vm_compute; reflexivity).
  assert (Hshow : scripted_show 3 (keyboard Fp.scripted unit "n" 0 0
                                            scripted_paused)
                  = Fp.Displayed stepped stepped_requests
                                 [DrawSurface; DrawAir; DrawCollision])
    by (vm_compute; reflexivity).
  destruct (single_step Fp.binary64 Fp.scripted unit
              Fp.scripted_max_vel_mag (fun _ _ sim => sim)
              Fp.scripted_run_simulation (fun r => r)
              (fun sim r => (sim, r)) (fun sim r => (sim, r))
              (fun sim r => (sim, r)) (fun _ _ r => r)
              3 0 0 scripted_paused stepped stepped_requests
              [DrawSurface; DrawAir; DrawCollision]
              Hframe eq_refl Hshow)
    as ((rest & Hreq) & Hcount & _ & Hidle).
  split; [exact Hframe|]. split; [reflexivity|]. split; [exact Hshow|].
  split; [eexists; exact Hreq|]. split; [exact Hcount | apply Hidle].
Defined.

End FpRuns.
